(** * featurestore: per-user activity features and the simulated feature store

    A shallow embedding of [src/feature_engineering.py] and
    [src/feature_store_ops.py], with the properties of the aggregation step
    (one row per user, exact counts, ordering, input validation) and of the
    simulated retrieval functions.

    Modelling conventions.
    - Python integers are [Z]; strings are [string].
    - A Python [dict] used as a counter or as a map from user id to a set is
      a [gmap]; a Python [set] is a [gset].
    - The input batch [raw_data] is a dict read at four keys; it is a record
      of four optional columns ([None]: the key is absent), typed as the
      data model has them: integer user ids and timestamps, string activity
      labels and product ids.
    - [sorted] is a merge sort by [<=]; on integers the sorted list of a set
      is determined by the set.
    - A raised exception is the [Raise] outcome of the [result] type.
    - A pandas [DataFrame] is a row count together with its labelled columns
      in column order; a cell is an integer or NaN.  A label may be repeated:
      [df[name]] then selects a frame, and an assignment to the label reaches
      every column that carries it.  An integer column of a frame is an int64
      column: the product of a column and a constant wraps around modulo
      [2^64], while the products of Python integers are exact. *)

From stdpp Require Import gmap strings list sorting.
From Stdlib Require Import ZArith.

Local Open Scope Z_scope.
Local Open Scope string_scope.

(** ** Exceptions and fallible computations *)

Inductive exn : Type :=
  | ValueError (msg : string)
  | KeyError (key : string).

Inductive result (A : Type) : Type :=
  | Ok (a : A)
  | Raise (e : exn).

Arguments Ok {A} a.
Arguments Raise {A} e.

#[global] Instance result_ret : MRet result := λ A a, Ok a.

#[global] Instance result_bind : MBind result := λ A B k r,
  match r with
  | Ok a => k a
  | Raise e => Raise e
  end.

(** A [for] loop whose body may raise: the first exception ends the loop. *)
Fixpoint for_each {A S : Type} (body : S → A → result S) (s : S) (l : list A)
  : result S :=
  match l with
  | [] => Ok s
  | x :: l' => s' ← body s x; for_each body s' l'
  end.

(** A loop that appends one computed item per element ([result.append]). *)
Fixpoint collect {A B : Type} (f : A → result B) (l : list A) : result (list B) :=
  match l with
  | [] => Ok []
  | x :: l' => y ← f x; ys ← collect f l'; Ok (y :: ys)
  end.

(** ** The input batch *)

Record raw_data : Type := mk_raw_data {
  user_id : option (list Z);
  activity_type : option (list string);
  timestamp : option (list Z);
  product_id : option (list string)
}.

(** [zip(a, b, c)] of Python: stops at the shortest argument. *)
Definition zip3 {A B C : Type} (a : list A) (b : list B) (c : list C)
  : list (A * B * C) :=
  zip (zip a b) c.

(** ** feature_engineering.py *)

(** The loop body of [calculate_total_activities]. *)
Definition count_activity (activity_counts : gmap Z Z) (uid : Z) : gmap Z Z :=
  <[uid := default 0 (activity_counts !! uid) + 1]> activity_counts.

(** The guard [not raw_data or 'user_id' not in raw_data] holds exactly when
    the key is absent: an empty dict lacks it too. *)
Definition calculate_total_activities (raw : raw_data) : result (gmap Z Z) :=
  match user_id raw with
  | None => Raise (ValueError "raw_data must contain 'user_id' key")
  | Some uids => Ok (foldl count_activity ∅ uids)
  end.

Definition missing_in_helper (key : string) : exn :=
  ValueError ("raw_data must contain '" +:+ key +:+ "' key").

(** The loop body of [calculate_unique_products_viewed]. *)
Definition add_viewed_product (user_products : gmap Z (gset string))
    (rec : Z * string * string) : gmap Z (gset string) :=
  let '(uid, act, pid) := rec in
  if decide (act = "view") then
    let user_products' :=
      match user_products !! uid with
      | None => <[uid := ∅]> user_products
      | Some _ => user_products
      end in
    alter (λ products, products ∪ {[pid]}) uid user_products'
  else user_products.

Definition calculate_unique_products_viewed (raw : raw_data) : result (gmap Z Z) :=
  match user_id raw with
  | None => Raise (missing_in_helper "user_id")
  | Some uids =>
    match activity_type raw with
    | None => Raise (missing_in_helper "activity_type")
    | Some acts =>
      match product_id raw with
      | None => Raise (missing_in_helper "product_id")
      | Some pids =>
          let user_products := foldl add_viewed_product ∅ (zip3 uids acts pids) in
          Ok ((λ products : gset string, Z.of_nat (size products)) <$> user_products)
      end
    end
  end.

(** The loop body of [calculate_purchase_count]. *)
Definition add_purchase (purchase_counts : gmap Z Z) (rec : Z * string) : gmap Z Z :=
  let '(uid, act) := rec in
  if decide (act = "purchase") then
    <[uid := default 0 (purchase_counts !! uid) + 1]> purchase_counts
  else purchase_counts.

Definition calculate_purchase_count (raw : raw_data) : result (gmap Z Z) :=
  match user_id raw with
  | None => Raise (missing_in_helper "user_id")
  | Some uids =>
    match activity_type raw with
    | None => Raise (missing_in_helper "activity_type")
    | Some acts => Ok (foldl add_purchase ∅ (zip uids acts))
    end
  end.

(** ** Data frames *)

Inductive cell : Type :=
  | Int (z : Z)
  | NaN.

Record DataFrame : Type := mk_DataFrame {
  nrows : nat;
  columns : list (string * list cell)
}.

(** [d.get(key)] on an insertion-ordered dict. *)
Fixpoint dict_get {V : Type} (d : list (string * V)) (key : string) : option V :=
  match d with
  | [] => None
  | (k, v) :: d' => if decide (k = key) then Some v else dict_get d' key
  end.

(** The first column that carries the label [name]; in a frame with
    distinct labels, the column of that label. *)
Definition df_col (df : DataFrame) (name : string) : option (list cell) :=
  dict_get (columns df) name.

(** All columns that carry the label [name], in column order. *)
Definition df_cols (df : DataFrame) (name : string) : list (list cell) :=
  (filter (λ c, c.1 = name) (columns df)).*2.

(** What [df[name]] selects: the column when one column carries the label,
    the frame of all columns that carry it when the label is repeated. *)
Inductive selection : Type :=
  | Series (col : list cell)
  | Frame (cols : list (list cell)).

(** [df[name]]; [KeyError] when no column carries the label. *)
Definition df_getitem (df : DataFrame) (name : string) : result selection :=
  match df_cols df name with
  | [] => Raise (KeyError name)
  | [col] => Ok (Series col)
  | cols => Ok (Frame cols)
  end.

(** [df.at[i, name]]. *)
Definition df_at (df : DataFrame) (name : string) (i : nat) : option cell :=
  col ← df_col df name; col !! i.

Definition df_names (df : DataFrame) : list string := fst <$> columns df.

(** [d[key] = v] on an insertion-ordered dict: an existing key keeps its
    position, a new key goes last. *)
Fixpoint dict_set {V : Type} (d : list (string * V)) (key : string) (v : V)
  : list (string * V) :=
  match d with
  | [] => [(key, v)]
  | (k, w) :: d' =>
      if decide (k = key) then (k, v) :: d' else (k, w) :: dict_set d' key v
  end.

(** [df[name] = col] for a column [col]: every column that carries the
    label takes the content [col] (the value is broadcast over a repeated
    label); a new label goes last. *)
Definition df_setitem (df : DataFrame) (name : string) (col : list cell) : DataFrame :=
  mk_DataFrame (nrows df)
    (if decide (name ∈ df_names df)
     then (λ c, if decide (c.1 = name) then (c.1, col) else c) <$> columns df
     else columns df ++ [(name, col)]).

(** Give the columns that carry [name], in column order, the contents
    [cols], as far as these go. *)
Fixpoint assign_columns (d : list (string * list cell)) (name : string)
    (cols : list (list cell)) : list (string * list cell) :=
  match d with
  | [] => []
  | (k, w) :: d' =>
      if decide (k = name) then
        match cols with
        | col :: cols' => (k, col) :: assign_columns d' name cols'
        | [] => (k, w) :: d'
        end
      else (k, w) :: assign_columns d' name cols
  end.

(** [df[name] = value] for a value that [df[...]] selected (as pandas 2
    does it): a series is assigned as [df_setitem] does; a frame of several
    columns is assigned position by position to a label carried by as many
    columns, and to no other label. *)
Definition df_setitem_selection (df : DataFrame) (name : string)
    (value : selection) : result DataFrame :=
  match value with
  | Series col => Ok (df_setitem df name col)
  | Frame cols =>
      if decide (name ∈ df_names df) then
        if decide (length (df_cols df name) = length cols) then
          Ok (mk_DataFrame (nrows df) (assign_columns (columns df) name cols))
        else Raise (ValueError "Columns must be same length as key")
      else
        Raise (ValueError
          ("Cannot set a DataFrame with multiple columns to the single column "
             +:+ name))
  end.

(** The value of a signed 64-bit integer that holds [z] modulo [2^64]. *)
Definition wrap64 (z : Z) : Z := (z + 2 ^ 63) mod 2 ^ 64 - 2 ^ 63.

(** The signed 64-bit integers. *)
Definition int64 (z : Z) : Prop := - 2 ^ 63 ≤ z < 2 ^ 63.

(** [pd.DataFrame(d)] for a dict [d] of lists of one common length. *)
Definition DataFrame_of_dict (d : list (string * list Z)) : DataFrame :=
  mk_DataFrame (match d with [] => 0%nat | (_, col) :: _ => length col end)
               ((λ c : string * list Z, (c.1, Int <$> c.2)) <$> d).

(** [sorted(set(l))]. *)
Definition sorted_set (l : list Z) : list Z :=
  merge_sort Z.le (elements (list_to_set l : gset Z)).

Definition required_keys : list string :=
  ["user_id"; "activity_type"; "timestamp"; "product_id"].

Definition missing_key (key : string) : exn :=
  ValueError ("Missing required key: " +:+ key).

Definition length_mismatch : exn :=
  ValueError "All data arrays must have the same length".

(** [len(raw_data[key])], when [key] is a key of the batch. *)
Definition column_length (raw : raw_data) (key : string) : option nat :=
  if decide (key = "user_id") then length <$> user_id raw
  else if decide (key = "activity_type") then length <$> activity_type raw
  else if decide (key = "timestamp") then length <$> timestamp raw
  else if decide (key = "product_id") then length <$> product_id raw
  else None.

(** [key in raw_data]. *)
Definition contains (raw : raw_data) (key : string) : bool :=
  bool_decide (is_Some (column_length raw key)).

Definition len_of (raw : raw_data) (key : string) : result nat :=
  match column_length raw key with
  | Some n => Ok n
  | None => Raise (KeyError key)
  end.

(** [raw_data['user_id']]. *)
Definition getitem_user_id (raw : raw_data) : result (list Z) :=
  match user_id raw with
  | Some l => Ok l
  | None => Raise (KeyError "user_id")
  end.

Definition engineer_user_activity_features (raw : raw_data) : result DataFrame :=
  (* Validate input structure *)
  _ ← for_each (λ (_ : unit) key,
         if contains raw key then Ok () else Raise (missing_key key))
       () required_keys;
  (* Validate data consistency *)
  lengths ← collect (len_of raw) required_keys;
  if decide (1 < size (list_to_set lengths : gset nat))%nat then
    Raise length_mismatch
  else
    (* Calculate features *)
    total_activities ← calculate_total_activities raw;
    unique_products ← calculate_unique_products_viewed raw;
    purchase_counts ← calculate_purchase_count raw;
    (* Get all unique user IDs *)
    uids ← getitem_user_id raw;
    let unique_users := sorted_set uids in
    (* Build feature DataFrame *)
    let features :=
      [ ("user_id", unique_users);
        ("total_activities",
           (λ uid, default 0 (total_activities !! uid)) <$> unique_users);
        ("unique_products_viewed",
           (λ uid, default 0 (unique_products !! uid)) <$> unique_users);
        ("purchase_count",
           (λ uid, default 0 (purchase_counts !! uid)) <$> unique_users) ] in
    Ok (DataFrame_of_dict features).

(** The frame the function builds once validation has passed, as a function
    of the columns it reads. *)
Definition engineered (uids : list Z) (acts : list string) (pids : list string)
  : DataFrame :=
  let total_activities := foldl count_activity ∅ uids in
  let unique_products :=
    (λ products : gset string, Z.of_nat (size products)) <$>
      foldl add_viewed_product ∅ (zip3 uids acts pids) in
  let purchase_counts := foldl add_purchase ∅ (zip uids acts) in
  let unique_users := sorted_set uids in
  DataFrame_of_dict
    [ ("user_id", unique_users);
      ("total_activities",
         (λ uid, default 0 (total_activities !! uid)) <$> unique_users);
      ("unique_products_viewed",
         (λ uid, default 0 (unique_products !! uid)) <$> unique_users);
      ("purchase_count",
         (λ uid, default 0 (purchase_counts !! uid)) <$> unique_users) ].

(** ** feature_store_ops.py *)

Record Field : Type := mk_Field {
  name : string;
  dtype : string
}.

Record timedelta : Type := mk_timedelta { days : Z }.

Record FeatureView : Type := mk_FeatureView {
  fv_name : string;
  entities : list string;
  features : list Field;
  ttl : timedelta;
  source : string;
  description : string
}.

Definition define_feature_view : FeatureView :=
  {| fv_name := "user_activity_features";
     entities := ["user_id"];
     features :=
       [ mk_Field "total_activities" "int64";
         mk_Field "unique_products_viewed" "int64";
         mk_Field "purchase_count" "int64" ];
     ttl := mk_timedelta 1;
     source := "push_source";
     description := "User activity aggregated features for ML models" |}.

(** The value of [features] when the argument is [None]. *)
Definition all_features : list string :=
  ["total_activities"; "unique_products_viewed"; "purchase_count"].

(** [series * k] on an int64 column: the product wraps around, silently. *)
Definition series_mul (col : list cell) (k : Z) : list cell :=
  (λ c, match c with Int z => Int (wrap64 (z * k)) | NaN => NaN end) <$> col.

(** [df[name] * k] on what [df[name]] selected. *)
Definition selection_mul (s : selection) (k : Z) : selection :=
  match s with
  | Series col => Series (series_mul col k)
  | Frame cols => Frame ((λ col, series_mul col k) <$> cols)
  end.

(** The body of the loop over [features] in [simulate_historical_features]. *)
Definition add_historical_feature (result_df : DataFrame) (feature : string)
  : result DataFrame :=
  if decide (feature = "total_activities") then
    uid ← df_getitem result_df "user_id";
    df_setitem_selection result_df feature (selection_mul uid 10)
  else if decide (feature = "unique_products_viewed") then
    uid ← df_getitem result_df "user_id";
    df_setitem_selection result_df feature (selection_mul uid 5)
  else if decide (feature = "purchase_count") then
    uid ← df_getitem result_df "user_id";
    df_setitem_selection result_df feature (selection_mul uid 2)
  else Ok result_df.

Definition simulate_historical_features (entity_df : DataFrame)
    (features : option (list string)) : result DataFrame :=
  let features := default all_features features in
  let result_df := entity_df in
  for_each add_historical_feature result_df features.

(** [entity_row['user_id']]. *)
Definition getitem (entity_row : gmap string Z) (key : string) : result Z :=
  match entity_row !! key with
  | Some v => Ok v
  | None => Raise (KeyError key)
  end.

(** The body of the loop over [features] in [simulate_online_features]. *)
Definition add_online_feature (uid : Z) (feature_dict : list (string * Z))
    (feature : string) : list (string * Z) :=
  if decide (feature = "total_activities") then
    dict_set feature_dict feature (uid * 10)
  else if decide (feature = "unique_products_viewed") then
    dict_set feature_dict feature (uid * 5)
  else if decide (feature = "purchase_count") then
    dict_set feature_dict feature (uid * 2)
  else feature_dict.

(** First occurrences of the elements of a list, in order. *)
Fixpoint first_occurrences (l : list string) : list string :=
  match l with
  | [] => []
  | x :: l' => x :: filter (λ y, y ≠ x) (first_occurrences l')
  end.

(** [pd.DataFrame(records)] for a list of dicts: one row per dict, one
    column per key in order of first appearance, NaN where a dict lacks
    the key. *)
Definition DataFrame_of_records (records : list (list (string * Z))) : DataFrame :=
  let names := first_occurrences (records ≫= fmap fst) in
  mk_DataFrame (length records)
    ((λ c, (c, (λ r, from_option Int NaN (dict_get r c)) <$> records)) <$> names).

(** The body of the loop over [entity_rows]: the dict appended to
    [result_data] for one entity. *)
Definition feature_dict_of (features : list string) (entity_row : gmap string Z)
  : result (list (string * Z)) :=
  uid ← getitem entity_row "user_id";
  let feature_dict := [("user_id", uid)] in
  Ok (foldl (add_online_feature uid) feature_dict features).

Definition simulate_online_features (entity_rows : list (gmap string Z))
    (features : option (list string)) : result DataFrame :=
  let features := default all_features features in
  result_data ← collect (feature_dict_of features) entity_rows;
  Ok (DataFrame_of_records result_data).

(** ** Specification vocabulary *)

(** One raw activity record: a position of the four parallel columns. *)
Record RawRecord : Type := mk_RawRecord {
  r_user_id : Z;
  r_activity_type : string;
  r_timestamp : Z;
  r_product_id : string
}.

(** A batch is well formed when its four columns are present and have one
    common length. *)
Definition well_formed (raw : raw_data) : Prop :=
  match user_id raw, activity_type raw, timestamp raw, product_id raw with
  | Some uids, Some acts, Some tss, Some pids =>
      length uids = length acts ∧ length acts = length tss
      ∧ length tss = length pids
  | _, _, _, _ => False
  end.

(** The columns of a batch, read as a list of records. *)
Definition zip_records (uids : list Z) (acts : list string) (tss : list Z)
    (pids : list string) : list RawRecord :=
  zip_with (λ ua tp, mk_RawRecord ua.1 ua.2 tp.1 tp.2)
    (zip uids acts) (zip tss pids).

Definition records (raw : raw_data) : list RawRecord :=
  match user_id raw, activity_type raw, timestamp raw, product_id raw with
  | Some uids, Some acts, Some tss, Some pids => zip_records uids acts tss pids
  | _, _, _, _ => []
  end.

(** The batch whose columns are the fields of the given records. *)
Definition batch_of (rs : list RawRecord) : raw_data :=
  mk_raw_data (Some (r_user_id <$> rs)) (Some (r_activity_type <$> rs))
              (Some (r_timestamp <$> rs)) (Some (r_product_id <$> rs)).

(** The three aggregates in the words of the specification: counts of
    records, and the number of distinct products among view records. *)
Definition spec_total_activities (id : Z) (rs : list RawRecord) : Z :=
  Z.of_nat (length (filter (λ r, r_user_id r = id) rs)).

Definition spec_unique_products_viewed (id : Z) (rs : list RawRecord) : Z :=
  Z.of_nat (length (remove_dups
    (r_product_id <$>
       filter (λ r, r_user_id r = id ∧ r_activity_type r = "view") rs))).

Definition spec_purchase_count (id : Z) (rs : list RawRecord) : Z :=
  Z.of_nat (length
    (filter (λ r, r_user_id r = id ∧ r_activity_type r = "purchase") rs)).

(** A row of the engineered frame. *)
Record FeatureRow : Type := mk_FeatureRow {
  fr_user_id : Z;
  fr_total_activities : Z;
  fr_unique_products_viewed : Z;
  fr_purchase_count : Z
}.

(** Row [i] of a frame read as a [FeatureRow]: its four cells must be there
    and hold integers. *)
Definition feature_row (df : DataFrame) (i : nat) : option FeatureRow :=
  match df_at df "user_id" i, df_at df "total_activities" i,
        df_at df "unique_products_viewed" i, df_at df "purchase_count" i with
  | Some (Int u), Some (Int t), Some (Int v), Some (Int p) =>
      Some (mk_FeatureRow u t v p)
  | _, _, _, _ => None
  end.

(** All [nrows df] rows of a frame, in index order; [None] unless every row
    reads as a [FeatureRow]. *)
Definition feature_rows (df : DataFrame) : option (list FeatureRow) :=
  mapM (feature_row df) (seq 0 (nrows df)).

(** The rows the specification asks for: one per distinct user, by
    ascending user id, with the three aggregates. *)
Definition expected_rows (rs : list RawRecord) : list FeatureRow :=
  (λ id, mk_FeatureRow id (spec_total_activities id rs)
           (spec_unique_products_viewed id rs) (spec_purchase_count id rs))
  <$> sorted_set (r_user_id <$> rs).

(** The two validation steps at the head of
    [engineer_user_activity_features], on their own. *)
Definition validation (raw : raw_data) : result unit :=
  _ ← for_each (λ (_ : unit) key,
         if contains raw key then Ok () else Raise (missing_key key))
       () required_keys;
  lengths ← collect (len_of raw) required_keys;
  if decide (1 < size (list_to_set lengths : gset nat))%nat then
    Raise length_mismatch
  else Ok ().

(** The input-shape error: one of the two errors of the validation steps. *)
Definition input_shape_error (e : exn) : Prop :=
  (∃ key, key ∈ required_keys ∧ e = missing_key key) ∨ e = length_mismatch.

(** A required sequence is absent from the batch. *)
Definition missing_sequence (raw : raw_data) : Prop :=
  ∃ key, key ∈ required_keys ∧ contains raw key = false.

(** Two of the required sequences have different lengths. *)
Definition unequal_lengths (raw : raw_data) : Prop :=
  ∃ key1 key2 n1 n2,
    key1 ∈ required_keys ∧ key2 ∈ required_keys
    ∧ column_length raw key1 = Some n1 ∧ column_length raw key2 = Some n2
    ∧ n1 ≠ n2.

(** Two activity labels of one record in two batches: when either is
    [view] or [purchase], they are the same label. *)
Definition same_relevant_label (a1 a2 : string) : Prop :=
  a1 = "view" ∨ a1 = "purchase" ∨ a2 = "view" ∨ a2 = "purchase" → a1 = a2.

(** Two records that agree on user and product, and on the label when it
    is view or purchase on either side. *)
Definition relabelled (r1 r2 : RawRecord) : Prop :=
  r_user_id r1 = r_user_id r2 ∧ r_product_id r1 = r_product_id r2
  ∧ same_relevant_label (r_activity_type r1) (r_activity_type r2).

(** A frame whose columns all have [nrows] cells and distinct names. *)
Definition df_wf (df : DataFrame) : Prop :=
  NoDup (df_names df) ∧ Forall (λ c, length c.2 = nrows df) (columns df).

(** The simulated value of a known feature for a user, as documented. *)
Definition simulated_value (feature : string) (uid : Z) : Z :=
  if decide (feature = "total_activities") then 10 * uid
  else if decide (feature = "unique_products_viewed") then 5 * uid
  else if decide (feature = "purchase_count") then 2 * uid
  else 0.

(** The factor by which the simulations scale a user id for a feature. *)
Definition coefficient (feature : string) : Z :=
  if decide (feature = "total_activities") then 10
  else if decide (feature = "unique_products_viewed") then 5
  else if decide (feature = "purchase_count") then 2
  else 0.

(** The dict that [simulate_online_features] builds for one entity. *)
Definition online_record (features : list string) (uid : Z) : list (string * Z) :=
  foldl (add_online_feature uid) [("user_id", uid)] features.

(** ** Sample inputs *)

(** The batch of the first scenario of the specification, followed by a
    [click] of a third user. *)
Definition sample_acts : list string :=
  ["view"; "view"; "purchase"; "view"; "view"; "click"].

Definition sample_batch : raw_data :=
  mk_raw_data (Some [1; 1; 1; 2; 2; 5])
              (Some sample_acts)
              (Some [1704067200; 1704070800; 1704074400; 1704078000;
                     1704081600; 1704106800])
              (Some ["A"; "B"; "A"; "C"; "D"; "H"]).

(** The same batch with the [click] relabelled. *)
Definition sample_relabelled_acts : list string :=
  ["view"; "view"; "purchase"; "view"; "view"; "scroll"].

Definition sample_relabelled : raw_data :=
  mk_raw_data (user_id sample_batch) (Some sample_relabelled_acts)
              (timestamp sample_batch) (product_id sample_batch).

(** The batch whose four columns are present and empty. *)
Definition empty_batch : raw_data :=
  mk_raw_data (Some []) (Some []) (Some []) (Some []).

(** An entity table with a timestamp column, and the entity rows of the
    demo script. *)
Definition sample_entity_df : DataFrame :=
  mk_DataFrame 3 [ ("user_id", [Int 1; Int 3; Int 5]);
                   ("event_timestamp", [Int 1704067200; Int 1703980800;
                                        Int 1703894400]) ].

Definition sample_entity_rows : list (gmap string Z) :=
  [ {["user_id" := 1]}; {["user_id" := 3]}; {["user_id" := 5]} ].

(** One entity whose user id is 2^62, as a table and as a list of rows. *)
Definition large_entity_df : DataFrame :=
  mk_DataFrame 1 [ ("user_id", [Int (2 ^ 62)]) ].

Definition large_entity_rows : list (gmap string Z) :=
  [ {["user_id" := 2 ^ 62]} ].

(** ** Further vocabulary *)

(** The sum of a list of integers ([sum] of Python). *)
Definition sum_Z (l : list Z) : Z := foldr Z.add 0 l.

(** Two records that agree on user and label, and on the product when the
    label is view. *)
Definition same_views (r r' : RawRecord) : Prop :=
  r_user_id r = r_user_id r' ∧ r_activity_type r = r_activity_type r'
  ∧ (r_activity_type r = "view" → r_product_id r = r_product_id r').

(** What one turn of the loop of [simulate_historical_features] does for a
    known feature, given the user_id column. *)
Definition set_feature (ucol : list cell) (df : DataFrame) (f : string)
  : DataFrame :=
  df_setitem df f (series_mul ucol (coefficient f)).

(** The requested names that are known features. *)
Definition known_features (features : list string) : list string :=
  filter (λ f, f ∈ all_features) features.

(** The columns labelled [f] hold what [simulate_historical_features]
    writes for the feature [f] in a frame whose user_id columns are
    [ucols]: the product of the one user_id column in each of them, or the
    products of the several user_id columns, one in each. *)
Definition feature_written (ucols : list (list cell)) (df : DataFrame)
    (f : string) : Prop :=
  match ucols with
  | [] => False
  | [ucol] =>
      df_cols df f ≠ []
      ∧ Forall (λ c, c = series_mul ucol (coefficient f)) (df_cols df f)
  | _ => df_cols df f = (λ c, series_mul c (coefficient f)) <$> ucols
  end.

(** ** Further sample inputs *)

(** [sample_batch] with its first two records exchanged. *)
Definition sample_reordered : raw_data :=
  mk_raw_data (Some [1; 1; 1; 2; 2; 5])
              (Some sample_acts)
              (Some [1704070800; 1704067200; 1704074400; 1704078000;
                     1704081600; 1704106800])
              (Some ["B"; "A"; "A"; "C"; "D"; "H"]).

(** [sample_batch] with other timestamps. *)
Definition sample_retimed : raw_data :=
  mk_raw_data (user_id sample_batch) (activity_type sample_batch)
              (Some [0; 0; 0; 0; 0; 0]) (product_id sample_batch).

(** [sample_batch] with other products on its purchase and its click. *)
Definition sample_other_products : raw_data :=
  mk_raw_data (user_id sample_batch) (activity_type sample_batch)
              (timestamp sample_batch)
              (Some ["A"; "B"; "Z"; "C"; "D"; "Y"]).

(** A batch without its activity_type and timestamp columns. *)
Definition sample_two_missing : raw_data :=
  mk_raw_data (Some [1; 2]) None None (Some ["A"]).

(** The frame engineered from [sample_batch]. *)
Definition sample_frame : DataFrame :=
  mk_DataFrame 3
    [ ("user_id", [Int 1; Int 2; Int 5]);
      ("total_activities", [Int 3; Int 2; Int 1]);
      ("unique_products_viewed", [Int 2; Int 2; Int 0]);
      ("purchase_count", [Int 1; Int 0; Int 0]) ].

(** The frame simulated from [sample_entity_df] for all features. *)
Definition sample_historical : DataFrame :=
  mk_DataFrame 3
    [ ("user_id", [Int 1; Int 3; Int 5]);
      ("event_timestamp", [Int 1704067200; Int 1703980800; Int 1703894400]);
      ("total_activities", [Int 10; Int 30; Int 50]);
      ("unique_products_viewed", [Int 5; Int 15; Int 25]);
      ("purchase_count", [Int 2; Int 6; Int 10]) ].

(** The entity rows of the demo script with further keys. *)
Definition sample_entity_rows_extra : list (gmap string Z) :=
  [ <["age" := 30]> {["user_id" := 1]};
    <["country" := 44]> {["user_id" := 3]};
    {["user_id" := 5]} ].

(** * Properties *)


Section validation.

Lemma lengths_differ (a b c d : nat) :
  (1 < size (list_to_set [a; b; c; d] : gset nat))%nat ↔ ¬ (a = b ∧ b = c ∧ c = d).
Proof.
  split.
  - intros Hsz (-> & -> & ->).
    assert ((list_to_set [d; d; d; d] : gset nat) = {[d]}) as Heq by set_solver.
    rewrite Heq, size_singleton in Hsz. lia.
  - intros Hne.
    destruct (decide (1 < size (list_to_set [a; b; c; d] : gset nat))%nat)
      as [|Hle]; [done|].
    exfalso. apply Hne.
    set (X := list_to_set [a; b; c; d] : gset nat) in *.
    assert (size X ≠ 0%nat) as Hpos.
    { apply size_non_empty_iff. set_solver. }
    destruct (size_1_elem_of X) as [x Hx]; [lia|].
    assert (a = x ∧ b = x ∧ c = x ∧ d = x) as (-> & -> & -> & ->) by set_solver.
    done.
Qed.

Lemma engineer_all_keys uids acts tss pids :
  engineer_user_activity_features
    (mk_raw_data (Some uids) (Some acts) (Some tss) (Some pids)) =
  if decide (1 < size (list_to_set
       [length uids; length acts; length tss; length pids] : gset nat))%nat
  then Raise length_mismatch
  else Ok (engineered uids acts pids).
Proof. reflexivity. Qed.

End validation.


Section aggregates.
Implicit Types (rs : list RawRecord) (id : Z).

Lemma total_fold (uids : list Z) (acc : gmap Z Z) id :
  default 0 (foldl count_activity acc uids !! id) =
  default 0 (acc !! id) + Z.of_nat (length (filter (λ u, u = id) uids)).
Proof.
  revert acc. induction uids as [|u uids IH]; intros acc; simpl.
  - lia.
  - rewrite IH, filter_cons. unfold count_activity.
    destruct (decide (u = id)) as [->|Hne].
    + rewrite lookup_insert_eq. simpl. lia.
    + rewrite lookup_insert_ne by done. lia.
Qed.

Lemma purchase_fold (l : list (Z * string)) (acc : gmap Z Z) id :
  default 0 (foldl add_purchase acc l !! id) =
  default 0 (acc !! id)
  + Z.of_nat (length (filter (λ r, r.1 = id ∧ r.2 = "purchase") l)).
Proof.
  revert acc. induction l as [|[u a] l IH]; intros acc; simpl.
  - lia.
  - rewrite IH, filter_cons. unfold add_purchase; simpl.
    destruct (decide (a = "purchase")) as [->|Ha].
    + destruct (decide (u = id)) as [->|Hne].
      * rewrite lookup_insert_eq, decide_True by done. simpl. lia.
      * rewrite lookup_insert_ne, decide_False by naive_solver. lia.
    + rewrite decide_False by naive_solver. lia.
Qed.

Lemma viewed_fold (l : list (Z * string * string)) (acc : gmap Z (gset string)) id :
  default ∅ (foldl add_viewed_product acc l !! id) =
  default ∅ (acc !! id)
  ∪ list_to_set (snd <$> filter (λ r, r.1.1 = id ∧ r.1.2 = "view") l).
Proof.
  revert acc. induction l as [|[[u a] p] l IH]; intros acc; simpl.
  - set_solver.
  - rewrite IH, filter_cons. unfold add_viewed_product; simpl.
    destruct (decide (a = "view")) as [->|Ha].
    + destruct (decide (u = id)) as [->|Hne].
      * rewrite decide_True by done. rewrite lookup_alter_eq.
        destruct (acc !! id) as [s|] eqn:Hacc; simpl.
        -- rewrite Hacc. simpl. set_solver.
        -- rewrite lookup_insert_eq. simpl. set_solver.
      * rewrite decide_False by naive_solver.
        rewrite lookup_alter_ne by done.
        destruct (acc !! u); [done|]. by rewrite lookup_insert_ne.
    + by rewrite decide_False by naive_solver.
Qed.

Lemma size_list_to_set_remove_dups (l : list string) :
  size (list_to_set l : gset string) = length (remove_dups l).
Proof.
  rewrite <- (size_list_to_set (C := gset string) (remove_dups l))
    by apply NoDup_remove_dups.
  f_equal. apply set_eq. intros x.
  by rewrite !elem_of_list_to_set, elem_of_remove_dups.
Qed.

End aggregates.


Section columns.
Context {A B : Type}.

Lemma filter_fmap (f : A → B) (P : B → Prop) `{!∀ y, Decision (P y)} (l : list A) :
  filter P (f <$> l) = f <$> filter (λ x, P (f x)) l.
Proof.
  induction l as [|x l IH]; [done|].
  rewrite fmap_cons, !filter_cons. destruct (decide (P (f x))); simpl; by rewrite IH.
Qed.

Lemma zip_fmap_same {C : Type} (f : C → A) (g : C → B) (l : list C) :
  zip (f <$> l) (g <$> l) = (λ x, (f x, g x)) <$> l.
Proof. induction l; simpl; by f_equal. Qed.

End columns.

Lemma zip_records_fields uids acts tss pids :
  length uids = length acts → length acts = length tss → length tss = length pids →
  let rs := zip_records uids acts tss pids in
  r_user_id <$> rs = uids ∧ r_activity_type <$> rs = acts
  ∧ r_timestamp <$> rs = tss ∧ r_product_id <$> rs = pids.
Proof.
  revert acts tss pids.
  induction uids as [|u uids IH]; intros [|a acts] [|t tss] [|p pids]; simpl;
    try discriminate; [done|].
  intros Hua Hat Htp.
  destruct (IH acts tss pids) as (? & ? & ? & ?); [lia..|].
  unfold zip_records in *. simpl. repeat split; by f_equal.
Qed.

Lemma well_formed_batch_of raw :
  well_formed raw → raw = batch_of (records raw).
Proof.
  destruct raw as [[u|] [a|] [t|] [p|]]; unfold well_formed, records; simpl; try done.
  intros (Hua & Hat & Htp).
  destruct (zip_records_fields u a t p) as (Hu & Ha & Ht & Hp); [done..|].
  unfold batch_of. by rewrite Hu, Ha, Ht, Hp.
Qed.

Lemma records_batch_of rs : records (batch_of rs) = rs.
Proof.
  unfold records, batch_of, zip_records. simpl.
  rewrite !zip_fmap_same, zip_with_fmap_l, zip_with_fmap_r, zip_with_diag. simpl.
  induction rs as [|[] rs IH]; simpl; by f_equal.
Qed.

Lemma well_formed_of_batch rs : well_formed (batch_of rs).
Proof. unfold well_formed, batch_of. simpl. by rewrite !length_fmap. Qed.

Section rows.

Lemma feature_rows_of_dict (us : list Z) (f1 f2 f3 : Z → Z) :
  feature_rows (DataFrame_of_dict
    [ ("user_id", us); ("total_activities", f1 <$> us);
      ("unique_products_viewed", f2 <$> us); ("purchase_count", f3 <$> us) ]) =
  Some ((λ u, mk_FeatureRow u (f1 u) (f2 u) (f3 u)) <$> us).
Proof.
  unfold feature_rows. apply mapM_Some_2. simpl.
  apply Forall2_fmap_r, Forall2_same_length_lookup. split.
  - by rewrite length_seq.
  - intros i j u [-> _]%lookup_seq Hu. simpl.
    unfold feature_row, df_at, df_col. simpl.
    rewrite !list_lookup_fmap, Hu. done.
Qed.

End rows.

Section sorted_set_facts.
Implicit Types (l : list Z) (x : Z).

Lemma elem_of_sorted_set l x : x ∈ sorted_set l ↔ x ∈ l.
Proof.
  unfold sorted_set. rewrite merge_sort_Permutation, elem_of_elements.
  apply elem_of_list_to_set.
Qed.

Lemma NoDup_sorted_set l : NoDup (sorted_set l).
Proof. unfold sorted_set. rewrite merge_sort_Permutation. apply NoDup_elements. Qed.

Lemma StronglySorted_sorted_set l : StronglySorted Z.le (sorted_set l).
Proof. apply StronglySorted_merge_sort; apply _. Qed.

End sorted_set_facts.

Section engineer.
Implicit Types (rs : list RawRecord) (raw : raw_data) (id : Z).

Lemma total_activities_spec rs id :
  default 0 (foldl count_activity ∅ (r_user_id <$> rs) !! id) =
  spec_total_activities id rs.
Proof.
  rewrite total_fold, lookup_empty, filter_fmap, length_fmap. simpl.
  unfold spec_total_activities. lia.
Qed.

Lemma purchase_count_spec rs id :
  default 0 (foldl add_purchase ∅
     (zip (r_user_id <$> rs) (r_activity_type <$> rs)) !! id) =
  spec_purchase_count id rs.
Proof.
  rewrite zip_fmap_same, purchase_fold, lookup_empty, filter_fmap, length_fmap.
  simpl. unfold spec_purchase_count. lia.
Qed.

Lemma unique_products_viewed_spec rs id :
  default 0 (((λ products : gset string, Z.of_nat (size products)) <$>
     foldl add_viewed_product ∅
       (zip3 (r_user_id <$> rs) (r_activity_type <$> rs) (r_product_id <$> rs)))
     !! id) =
  spec_unique_products_viewed id rs.
Proof.
  unfold zip3. rewrite !zip_fmap_same, lookup_fmap.
  set (m := foldl _ _ _).
  transitivity (Z.of_nat (size (default (∅ : gset string) (m !! id)))).
  { destruct (m !! id); [done|].
    change (0 = Z.of_nat (size (∅ : gset string))). by rewrite size_empty. }
  subst m. rewrite viewed_fold, lookup_empty. simpl.
  rewrite (left_id_L ∅ (∪)), size_list_to_set_remove_dups, filter_fmap.
  rewrite <- list_fmap_compose. done.
Qed.

Lemma engineer_batch_of rs :
  engineer_user_activity_features (batch_of rs) =
  Ok (engineered (r_user_id <$> rs) (r_activity_type <$> rs) (r_product_id <$> rs)).
Proof.
  unfold batch_of. rewrite engineer_all_keys, decide_False; [done|].
  rewrite lengths_differ, !length_fmap. naive_solver.
Qed.

Lemma engineered_rows rs :
  feature_rows
    (engineered (r_user_id <$> rs) (r_activity_type <$> rs) (r_product_id <$> rs)) =
  Some (expected_rows rs).
Proof.
  unfold engineered, expected_rows. rewrite feature_rows_of_dict. f_equal.
  apply list_fmap_ext. intros _ id _.
  by rewrite total_activities_spec, unique_products_viewed_spec,
    purchase_count_spec.
Qed.

(** On a well-formed batch the function returns a frame whose rows are
    exactly the expected ones. *)
Lemma engineer_well_formed raw :
  well_formed raw →
  ∃ df, engineer_user_activity_features raw = Ok df
        ∧ feature_rows df = Some (expected_rows (records raw)).
Proof.
  intros Hwf%well_formed_batch_of. revert Hwf.
  generalize (records raw). intros rs ->.
  rewrite engineer_batch_of. eexists; split; [done|]. apply engineered_rows.
Qed.

End engineer.

Section engineer_claims.
Implicit Types (rs : list RawRecord) (raw : raw_data) (id : Z).

Lemma expected_rows_user_ids rs :
  fr_user_id <$> expected_rows rs = sorted_set (r_user_id <$> rs).
Proof.
  unfold expected_rows. rewrite <- list_fmap_compose. apply list_fmap_id.
Qed.

Lemma elem_of_expected_rows rs row :
  row ∈ expected_rows rs →
  fr_total_activities row = spec_total_activities (fr_user_id row) rs
  ∧ fr_unique_products_viewed row = spec_unique_products_viewed (fr_user_id row) rs
  ∧ fr_purchase_count row = spec_purchase_count (fr_user_id row) rs.
Proof.
  unfold expected_rows. intros (id & -> & _)%list_elem_of_fmap. done.
Qed.

Lemma filter_none {A} (P : A → Prop) `{!∀ x, Decision (P x)} (l : list A) :
  Forall (λ x, ¬ P x) l → filter P l = [].
Proof.
  induction 1 as [|x l Hx _ IH]; [done|].
  by rewrite filter_cons, decide_False.
Qed.

Lemma well_formed_user_id raw :
  well_formed raw → user_id raw = Some (r_user_id <$> records raw).
Proof. intros Hwf%well_formed_batch_of. by rewrite Hwf at 1. Qed.

(** Answer a goal [∃ df rows, ...] about a well-formed batch with the frame
    the function returns and the expected rows. *)
Ltac with_expected_rows raw Hwf :=
  let df := fresh "df" in
  let Hdf := fresh "Hdf" in
  let Hrows := fresh "Hrows" in
  destruct (engineer_well_formed raw Hwf) as (df & Hdf & Hrows);
  exists df, (expected_rows (records raw)).

(** C1. On a well-formed batch the function returns exactly one row per
    distinct user id of the batch (none dropped, none twice); in the row of
    a user, total_activities is the number of that user's records and
    purchase_count the number of those with activity type purchase; a count
    whose qualifying records are none is 0 (a cell of the row, not a missing
    one): purchase_count when the user has no purchase record,
    unique_products_viewed when the user has no view record. *)
Theorem engineer_one_row_per_user raw :
  well_formed raw →
  ∃ df rows uids,
    engineer_user_activity_features raw = Ok df
    ∧ feature_rows df = Some rows
    ∧ user_id raw = Some uids
    ∧ NoDup (fr_user_id <$> rows)
    ∧ (∀ id, id ∈ fr_user_id <$> rows ↔ id ∈ uids)
    ∧ (∀ row, row ∈ rows →
         fr_total_activities row =
           spec_total_activities (fr_user_id row) (records raw)
         ∧ fr_purchase_count row =
           spec_purchase_count (fr_user_id row) (records raw))
    ∧ (∀ row, row ∈ rows →
         Forall (λ r, ¬ (r_user_id r = fr_user_id row
                         ∧ r_activity_type r = "purchase")) (records raw) →
         fr_purchase_count row = 0)
    ∧ (∀ row, row ∈ rows →
         Forall (λ r, ¬ (r_user_id r = fr_user_id row
                         ∧ r_activity_type r = "view")) (records raw) →
         fr_unique_products_viewed row = 0).
Proof.
  intros Hwf. with_expected_rows raw Hwf. exists (r_user_id <$> records raw).
  rewrite expected_rows_user_ids.
  split_and!; [done|done|by apply well_formed_user_id|..].
  - apply NoDup_sorted_set.
  - intros id. apply elem_of_sorted_set.
  - intros row (? & _ & ?)%elem_of_expected_rows. done.
  - intros row (_ & _ & ->)%elem_of_expected_rows Hnone.
    unfold spec_purchase_count. by rewrite filter_none.
  - intros row (_ & -> & _)%elem_of_expected_rows Hnone.
    unfold spec_unique_products_viewed. by rewrite filter_none.
Qed.

(** C2. On a well-formed batch, every user of the batch has a row whose
    unique_products_viewed is the number of distinct product ids among that
    user's view records: a product viewed several times counts once, and the
    product of a record of another activity type does not count. *)
Theorem engineer_unique_products_viewed raw :
  well_formed raw →
  ∃ df rows uids,
    engineer_user_activity_features raw = Ok df
    ∧ feature_rows df = Some rows
    ∧ user_id raw = Some uids
    ∧ (∀ id, id ∈ uids → ∃ row, row ∈ rows ∧ fr_user_id row = id)
    ∧ (∀ row, row ∈ rows →
         fr_unique_products_viewed row =
           Z.of_nat (length (remove_dups (r_product_id <$>
             filter (λ r, r_user_id r = fr_user_id row
                          ∧ r_activity_type r = "view") (records raw))))).
Proof.
  intros Hwf. with_expected_rows raw Hwf. exists (r_user_id <$> records raw).
  split_and!; [done|done|by apply well_formed_user_id|..].
  - intros id Hid%elem_of_sorted_set.
    rewrite <- expected_rows_user_ids in Hid.
    apply list_elem_of_fmap in Hid as (row & -> & Hrow). eauto.
  - intros row (_ & ? & _)%elem_of_expected_rows. done.
Qed.

(** C4. On a well-formed batch the rows come in ascending order of user
    id. *)
Theorem engineer_rows_sorted raw :
  well_formed raw →
  ∃ df rows,
    engineer_user_activity_features raw = Ok df
    ∧ feature_rows df = Some rows
    ∧ StronglySorted Z.le (fr_user_id <$> rows).
Proof.
  intros Hwf. with_expected_rows raw Hwf. split_and!; [done..|].
  rewrite expected_rows_user_ids. apply StronglySorted_sorted_set.
Qed.

Lemma length_remove_dups_le {A} `{!EqDecision A} (l : list A) :
  (length (remove_dups l) ≤ length l)%nat.
Proof.
  induction l as [|x l IH]; simpl; [done|].
  destruct (decide_rel _ x l); simpl; lia.
Qed.

Lemma views_and_purchases_le rs id :
  (length (filter (λ r, r_user_id r = id ∧ r_activity_type r = "view") rs)
   + length (filter (λ r, r_user_id r = id ∧ r_activity_type r = "purchase") rs)
   ≤ length (filter (λ r, r_user_id r = id) rs))%nat.
Proof.
  induction rs as [|r rs IH]; [done|].
  rewrite !filter_cons.
  destruct (decide (r_user_id r = id)) as [Hid|Hid].
  - destruct (decide (r_activity_type r = "view")) as [Hv|Hv].
    + rewrite decide_True, decide_False by (rewrite ?Hv; naive_solver).
      simpl. lia.
    + rewrite (decide_False (P := _ ∧ _ = "view")) by naive_solver.
      destruct (decide (r_user_id r = id ∧ r_activity_type r = "purchase"));
        simpl; lia.
  - rewrite !decide_False by naive_solver. done.
Qed.

(** C9. On a well-formed batch every row has non-negative counts with
    unique_products_viewed + purchase_count <= total_activities. *)
Theorem engineer_counts_bounded raw :
  well_formed raw →
  ∃ df rows,
    engineer_user_activity_features raw = Ok df
    ∧ feature_rows df = Some rows
    ∧ ∀ row, row ∈ rows →
        (0 ≤ fr_total_activities row)%Z
        ∧ (0 ≤ fr_unique_products_viewed row)%Z
        ∧ (0 ≤ fr_purchase_count row)%Z
        ∧ (fr_unique_products_viewed row + fr_purchase_count row
           ≤ fr_total_activities row)%Z.
Proof.
  intros Hwf. with_expected_rows raw Hwf. split_and!; [done..|].
  intros row (-> & -> & ->)%elem_of_expected_rows.
  unfold spec_total_activities, spec_unique_products_viewed, spec_purchase_count.
  pose proof (views_and_purchases_le (records raw) (fr_user_id row)) as Hle.
  pose proof (length_remove_dups_le (r_product_id <$>
    filter (λ r, r_user_id r = fr_user_id row ∧ r_activity_type r = "view")
      (records raw))) as Hdup.
  rewrite length_fmap in Hdup. lia.
Qed.

Lemma StronglySorted_le_lt (l : list Z) :
  StronglySorted Z.le l → NoDup l → StronglySorted Z.lt l.
Proof.
  induction 1 as [|x l _ IH Hx]; [constructor|].
  intros [Hnin Hnd]%NoDup_cons. constructor.
  - by apply IH.
  - rewrite Forall_forall in Hx |- *. intros y Hy.
    specialize (Hx y Hy). assert (x ≠ y) by (intros ->; done). lia.
Qed.

(** X1. On a well-formed batch the user ids of the rows strictly increase. *)
Theorem engineer_rows_strictly_sorted raw :
  well_formed raw →
  ∃ df rows,
    engineer_user_activity_features raw = Ok df
    ∧ feature_rows df = Some rows
    ∧ StronglySorted Z.lt (fr_user_id <$> rows).
Proof.
  intros Hwf. with_expected_rows raw Hwf. split_and!; [done..|].
  rewrite expected_rows_user_ids.
  apply StronglySorted_le_lt; [apply StronglySorted_sorted_set|].
  apply NoDup_sorted_set.
Qed.

(** X2. On a well-formed batch, a user without view records has
    unique_products_viewed 0, and a user without purchase records has
    purchase_count 0. *)
Theorem engineer_zero_default raw :
  well_formed raw →
  ∃ df rows,
    engineer_user_activity_features raw = Ok df
    ∧ feature_rows df = Some rows
    ∧ ∀ row, row ∈ rows →
        (Forall (λ r, ¬ (r_user_id r = fr_user_id row
                         ∧ r_activity_type r = "view")) (records raw) →
         fr_unique_products_viewed row = 0)
        ∧ (Forall (λ r, ¬ (r_user_id r = fr_user_id row
                           ∧ r_activity_type r = "purchase")) (records raw) →
           fr_purchase_count row = 0).
Proof.
  intros Hwf. with_expected_rows raw Hwf. split_and!; [done..|].
  intros row (_ & -> & ->)%elem_of_expected_rows.
  unfold spec_unique_products_viewed, spec_purchase_count.
  split; intros Hnone; by rewrite filter_none.
Qed.

(** C6. The batch with four empty columns is accepted, and the frame it
    yields has no rows. *)
Theorem engineer_empty_batch :
  ∃ df,
    engineer_user_activity_features empty_batch = Ok df
    ∧ nrows df = 0%nat
    ∧ feature_rows df = Some [].
Proof. eexists. split_and!; reflexivity. Qed.

End engineer_claims.

Section shape_errors.
Implicit Types (raw : raw_data) (e : exn).

Lemma elem_of_required_keys key :
  key ∈ required_keys ↔
  key = "user_id" ∨ key = "activity_type" ∨ key = "timestamp" ∨ key = "product_id".
Proof. unfold required_keys. set_solver. Qed.

Lemma missing_sequence_iff raw :
  missing_sequence raw ↔
  user_id raw = None ∨ activity_type raw = None
  ∨ timestamp raw = None ∨ product_id raw = None.
Proof.
  unfold missing_sequence. split.
  - intros (key & Hkey%elem_of_required_keys & Hc).
    destruct raw as [[u|] [a|] [t|] [p|]]; simpl; auto;
      destruct Hkey as [-> | [-> | [-> | ->]]]; discriminate Hc.
  - destruct raw as [[u|] [a|] [t|] [p|]]; simpl;
      intros [H | [H | [H | H]]]; try discriminate H.
    all: first
      [ by (exists "user_id"; split; [apply elem_of_required_keys; auto|])
      | by (exists "activity_type"; split; [apply elem_of_required_keys; auto|])
      | by (exists "timestamp"; split; [apply elem_of_required_keys; auto|])
      | by (exists "product_id"; split; [apply elem_of_required_keys; auto 10|]) ].
Qed.

Lemma unequal_lengths_iff uids acts tss pids :
  unequal_lengths (mk_raw_data (Some uids) (Some acts) (Some tss) (Some pids)) ↔
  ¬ (length uids = length acts ∧ length acts = length tss
     ∧ length tss = length pids).
Proof.
  unfold unequal_lengths. split.
  - intros (k1 & k2 & n1 & n2 & Hk1%elem_of_required_keys
            & Hk2%elem_of_required_keys & H1 & H2 & Hne) (Hua & Hat & Htp).
    destruct Hk1 as [-> | [-> | [-> | ->]]];
      destruct Hk2 as [-> | [-> | [-> | ->]]];
      unfold column_length in H1, H2; simpl in H1, H2; simplify_eq; lia.
  - intros Hne.
    destruct (decide (length uids = length acts)) as [Hua|Hua].
    + destruct (decide (length acts = length tss)) as [Hat|Hat].
      * exists "timestamp", "product_id", (length tss), (length pids).
        split_and!; [apply elem_of_required_keys; auto 10..|done|done|naive_solver].
      * exists "activity_type", "timestamp", (length acts), (length tss).
        split_and!; [apply elem_of_required_keys; auto 10..|done|done|done].
    + exists "user_id", "activity_type", (length uids), (length acts).
      split_and!; [apply elem_of_required_keys; auto 10..|done|done|done].
Qed.

Lemma validation_all_keys uids acts tss pids :
  validation (mk_raw_data (Some uids) (Some acts) (Some tss) (Some pids)) =
  if decide (1 < size (list_to_set
       [length uids; length acts; length tss; length pids] : gset nat))%nat
  then Raise length_mismatch
  else Ok ().
Proof. reflexivity. Qed.

Lemma input_shape_error_missing key :
  key ∈ required_keys → input_shape_error (missing_key key).
Proof. left. eauto. Qed.

(** C3. The function raises exactly when a required sequence is absent or
    two sequences differ in length; what it raises is then the input-shape
    error, raised by the validation steps that precede the aggregation, and
    on a well-formed batch it returns a frame. *)
Theorem engineer_input_shape_error raw :
  ((∃ e, engineer_user_activity_features raw = Raise e)
     ↔ missing_sequence raw ∨ unequal_lengths raw)
  ∧ (∀ e, engineer_user_activity_features raw = Raise e →
          input_shape_error e ∧ validation raw = Raise e)
  ∧ (well_formed raw ↔ ¬ (missing_sequence raw ∨ unequal_lengths raw))
  ∧ (well_formed raw ↔ ∃ df, engineer_user_activity_features raw = Ok df).
Proof.
  destruct raw as [[uids|] [acts|] [tss|] [pids|]].
  2-16: rewrite missing_sequence_iff; simpl;
    split_and!;
      [ split; [auto 10 | intros _; eexists; reflexivity]
      | intros e [= <-]; split; [|reflexivity];
        apply input_shape_error_missing, elem_of_required_keys; auto 10
      | unfold well_formed; simpl; split; [done | intros []; auto 10]
      | unfold well_formed; simpl; split; [done | intros [df [=]]] ].
  rewrite missing_sequence_iff, unequal_lengths_iff, engineer_all_keys,
    validation_all_keys.
  unfold well_formed; cbn [user_id activity_type timestamp product_id].
  destruct (decide (1 < size (list_to_set
    [length uids; length acts; length tss; length pids] : gset nat))%nat)
    as [Hlt|Hge].
  - pose proof (proj1 (lengths_differ _ _ _ _) Hlt) as Hne.
    split_and!.
    + split; [auto | eauto].
    + intros e [= <-]. split; [by right | done].
    + split; [done | tauto].
    + split; [done | intros [df [=]]].
  - assert (length uids = length acts ∧ length acts = length tss
            ∧ length tss = length pids) as Heq.
    { destruct (decide (length uids = length acts ∧ length acts = length tss
                        ∧ length tss = length pids)) as [|Hne]; [done|].
      by apply lengths_differ in Hne. }
    split_and!.
    + split; [intros [e [=]] | intros [H | H]; [|done]].
      destruct H as [H | [H | [H | H]]]; discriminate H.
    + intros e [=].
    + split; [|done]. intros _ [H | H]; [|done].
      destruct H as [H | [H | [H | H]]]; discriminate H.
    + split; [eauto | done].
Qed.

End shape_errors.

Section independence.
Implicit Types (rs : list RawRecord) (raw : raw_data) (id : Z).

Lemma relabelled_of_columns rs1 rs2 :
  r_user_id <$> rs1 = r_user_id <$> rs2 →
  r_product_id <$> rs1 = r_product_id <$> rs2 →
  Forall2 same_relevant_label (r_activity_type <$> rs1) (r_activity_type <$> rs2) →
  Forall2 relabelled rs1 rs2.
Proof.
  revert rs2. induction rs1 as [|r1 rs1 IH]; intros [|r2 rs2]; simpl;
    try discriminate; [constructor|].
  intros [= Hu Hus] [= Hp Hps] Hacts.
  apply Forall2_cons in Hacts as [Ha Hacts].
  constructor; [done|]. by apply IH.
Qed.

Lemma relabelled_filter (label : string) rs1 rs2 id :
  label = "view" ∨ label = "purchase" →
  Forall2 relabelled rs1 rs2 →
  r_product_id <$>
    filter (λ r, r_user_id r = id ∧ r_activity_type r = label) rs1 =
  r_product_id <$>
    filter (λ r, r_user_id r = id ∧ r_activity_type r = label) rs2.
Proof.
  intros Hlabel. induction 1 as [|r1 r2 rs1 rs2 (Hu & Hp & Ha) _ IH]; [done|].
  rewrite !filter_cons.
  assert (r_activity_type r1 = label ↔ r_activity_type r2 = label) as Hiff.
  { unfold same_relevant_label in Ha. split; intros <-.
    - symmetry. apply Ha. tauto.
    - apply Ha. tauto. }
  destruct (decide (r_user_id r1 = id ∧ r_activity_type r1 = label)) as [H1|H1].
  - rewrite decide_True by (rewrite <- Hu, <- Hiff; done).
    rewrite !fmap_cons. by f_equal.
  - rewrite decide_False by (rewrite <- Hu, <- Hiff; done). done.
Qed.

Lemma total_activities_of_column rs id :
  spec_total_activities id rs =
  Z.of_nat (length (filter (λ u, u = id) (r_user_id <$> rs))).
Proof. by rewrite filter_fmap, length_fmap. Qed.

Lemma relabelled_expected_rows rs1 rs2 :
  Forall2 relabelled rs1 rs2 → expected_rows rs1 = expected_rows rs2.
Proof.
  intros Hrel.
  assert (r_user_id <$> rs1 = r_user_id <$> rs2) as Hus.
  { induction Hrel as [|r1 r2 ? ? (Hu & _) _ IH]; [done|].
    rewrite !fmap_cons. by f_equal. }
  unfold expected_rows. rewrite Hus. apply list_fmap_ext. intros _ id _.
  f_equal.
  - by rewrite !total_activities_of_column, Hus.
  - unfold spec_unique_products_viewed.
    by rewrite (relabelled_filter "view" rs1 rs2) by auto.
  - unfold spec_purchase_count.
    rewrite <- (length_fmap r_product_id (filter _ rs1)),
      <- (length_fmap r_product_id (filter _ rs2)).
    by rewrite (relabelled_filter "purchase" rs1 rs2) by auto.
Qed.

(** C5. Two well-formed batches that differ only in activity labels, and
    agree on every label that is view or purchase in either of them, yield
    the same users with the same unique_products_viewed and purchase_count
    (and in fact the same rows). *)
Theorem engineer_irrelevant_labels raw1 raw2 acts1 acts2 :
  well_formed raw1 → well_formed raw2 →
  user_id raw1 = user_id raw2 →
  timestamp raw1 = timestamp raw2 →
  product_id raw1 = product_id raw2 →
  activity_type raw1 = Some acts1 →
  activity_type raw2 = Some acts2 →
  Forall2 same_relevant_label acts1 acts2 →
  ∃ df1 df2 rows1 rows2,
    engineer_user_activity_features raw1 = Ok df1
    ∧ engineer_user_activity_features raw2 = Ok df2
    ∧ feature_rows df1 = Some rows1
    ∧ feature_rows df2 = Some rows2
    ∧ fr_user_id <$> rows1 = fr_user_id <$> rows2
    ∧ fr_unique_products_viewed <$> rows1 = fr_unique_products_viewed <$> rows2
    ∧ fr_purchase_count <$> rows1 = fr_purchase_count <$> rows2
    ∧ rows1 = rows2.
Proof.
  intros Hwf1 Hwf2 Hu Ht Hp Ha1 Ha2 Hacts.
  destruct (engineer_well_formed raw1 Hwf1) as (df1 & Hdf1 & Hrows1).
  destruct (engineer_well_formed raw2 Hwf2) as (df2 & Hdf2 & Hrows2).
  assert (expected_rows (records raw1) = expected_rows (records raw2)) as Heq.
  { apply relabelled_expected_rows, relabelled_of_columns.
    - apply (inj Some).
      by rewrite <- (well_formed_user_id raw1), <- (well_formed_user_id raw2).
    - pose proof (well_formed_batch_of raw1 Hwf1) as H1.
      pose proof (well_formed_batch_of raw2 Hwf2) as H2.
      apply (f_equal product_id) in H1, H2. simpl in H1, H2.
      apply (inj Some). congruence.
    - pose proof (well_formed_batch_of raw1 Hwf1) as H1.
      pose proof (well_formed_batch_of raw2 Hwf2) as H2.
      apply (f_equal activity_type) in H1, H2. simpl in H1, H2.
      rewrite Ha1 in H1. rewrite Ha2 in H2. by simplify_eq. }
  rewrite <- Heq in Hrows2.
  exists df1, df2, (expected_rows (records raw1)), (expected_rows (records raw1)).
  split_and!; done.
Qed.

End independence.

Section dicts.
Context {V : Type}.
Implicit Types (d : list (string * V)) (k : string) (v : V).

Lemma dict_get_set_eq d k v : dict_get (dict_set d k v) k = Some v.
Proof.
  induction d as [|[k' w] d IH]; simpl.
  - by rewrite decide_True.
  - destruct (decide (k' = k)) as [->|Hne]; simpl.
    + by rewrite decide_True.
    + by rewrite decide_False.
Qed.

Lemma dict_get_set_ne d k k' v :
  k ≠ k' → dict_get (dict_set d k v) k' = dict_get d k'.
Proof.
  intros Hne. induction d as [|[k0 w] d IH]; simpl.
  - by rewrite decide_False.
  - destruct (decide (k0 = k)) as [->|Hk0]; simpl.
    + by rewrite !decide_False.
    + destruct (decide (k0 = k')); done.
Qed.

Lemma dict_set_keys d k v :
  (dict_set d k v).*1 = if decide (k ∈ d.*1) then d.*1 else (d.*1 ++ [k])%list.
Proof.
  induction d as [|[k' w] d IH]; cbn [dict_set].
  - rewrite decide_False; [done|]. apply not_elem_of_nil.
  - destruct (decide (k' = k)) as [->|Hne]; rewrite !fmap_cons; cbn [fst].
    + rewrite decide_True; [done|]. left.
    + rewrite IH. destruct (decide (k ∈ d.*1)).
      * rewrite decide_True; [done|]. by right.
      * rewrite decide_False; [done|]. rewrite elem_of_cons. naive_solver.
Qed.

Lemma dict_set_NoDup d k v : NoDup d.*1 → NoDup (dict_set d k v).*1.
Proof.
  intros Hd. rewrite dict_set_keys. destruct (decide (k ∈ d.*1)); [done|].
  apply NoDup_app. split_and!; [done| |apply NoDup_singleton].
  intros x Hx ->%list_elem_of_singleton. done.
Qed.

Lemma dict_set_Forall (P : V → Prop) d k v :
  Forall (λ c, P c.2) d → P v → Forall (λ c, P c.2) (dict_set d k v).
Proof.
  intros Hd Hv. induction Hd as [|[k' w] d Hw Hd IH]; simpl.
  - by constructor.
  - destruct (decide (k' = k)); constructor; done.
Qed.

Lemma dict_get_Some_key d k v : dict_get d k = Some v → k ∈ d.*1.
Proof.
  induction d as [|[k' w] d IH]; simpl; [done|].
  destruct (decide (k' = k)) as [->|]; [left|right; auto].
Qed.

End dicts.

Section historical.
Implicit Types (df : DataFrame) (f : string) (col ucol : list cell).

Lemma elem_of_all_features f :
  f ∈ all_features ↔
  f = "total_activities" ∨ f = "unique_products_viewed" ∨ f = "purchase_count".
Proof. unfold all_features. set_solver. Qed.

Lemma df_names_setitem df f col :
  df_names (df_setitem df f col) =
  if decide (f ∈ df_names df) then df_names df else (df_names df ++ [f])%list.
Proof.
  unfold df_setitem, df_names. cbn [columns]. case_decide.
  - rewrite <- list_fmap_compose. apply list_fmap_ext. intros _ c _. simpl.
    by case_decide.
  - by rewrite fmap_app.
Qed.

Lemma df_col_setitem_eq df f col : df_col (df_setitem df f col) f = Some col.
Proof.
  unfold df_col, df_setitem, df_names. cbn [columns].
  induction (columns df) as [|[k w] d IH].
  - rewrite decide_False by apply not_elem_of_nil. simpl. by rewrite decide_True.
  - rewrite fmap_cons. cbn [fst]. destruct (decide (k = f)) as [->|Hne].
    + rewrite decide_True by left. rewrite fmap_cons. cbn [fst dict_get].
      by rewrite !decide_True.
    + destruct (decide (f ∈ d.*1)) as [Hin|Hnin].
      * rewrite decide_True by (by right).
        rewrite fmap_cons. cbn [fst]. rewrite decide_False by done.
        cbn [dict_get]. by rewrite decide_False.
      * rewrite decide_False by (rewrite elem_of_cons; naive_solver).
        cbn [app dict_get]. by rewrite decide_False.
Qed.

Lemma df_col_setitem_ne df f g col :
  f ≠ g → df_col (df_setitem df f col) g = df_col df g.
Proof.
  intros Hfg. unfold df_col, df_setitem. cbn [columns]. case_decide as Hin.
  - clear Hin. induction (columns df) as [|[k w] d IH]; [done|].
    rewrite fmap_cons. cbn [fst]. destruct (decide (k = f)) as [->|Hne].
    + cbn [dict_get fst]. by rewrite !decide_False.
    + cbn [dict_get]. by rewrite IH.
  - clear Hin. induction (columns df) as [|[k w] d IH].
    + simpl. by rewrite decide_False.
    + cbn [app dict_get]. by rewrite IH.
Qed.

Lemma df_cols_setitem_ne df f g col :
  f ≠ g → df_cols (df_setitem df f col) g = df_cols df g.
Proof.
  intros Hfg. unfold df_cols, df_setitem. cbn [columns]. case_decide as Hin.
  - clear Hin. induction (columns df) as [|[k w] d IH]; [done|].
    rewrite fmap_cons. cbn [fst].
    destruct (decide (k = f)) as [->|Hne]; rewrite !filter_cons; cbn [fst].
    + by rewrite !decide_False.
    + destruct (decide (k = g)); rewrite ?fmap_cons; by rewrite IH.
  - rewrite filter_app, fmap_app, filter_cons. cbn [fst].
    rewrite decide_False by done. by rewrite filter_nil, app_nil_r.
Qed.

Lemma broadcast_cols (d : list (string * list cell)) f col :
  Forall (λ c, c = col)
    (filter (λ c, c.1 = f)
       ((λ c, if decide (c.1 = f) then (c.1, col) else c) <$> d)).*2.
Proof.
  induction d as [|[k w] d IH]; [constructor|].
  rewrite fmap_cons. cbn [fst].
  destruct (decide (k = f)) as [->|Hne]; rewrite filter_cons; cbn [fst].
  - rewrite decide_True by done. rewrite fmap_cons. by constructor.
  - by rewrite decide_False.
Qed.

Lemma df_cols_setitem_eq df f col :
  df_cols (df_setitem df f col) f ≠ []
  ∧ Forall (λ c, c = col) (df_cols (df_setitem df f col) f).
Proof.
  unfold df_cols, df_setitem, df_names. cbn [columns]. case_decide as Hin.
  - split; [|apply broadcast_cols]. revert Hin.
    induction (columns df) as [|[k w] d IH]; intros Hin;
      [by apply elem_of_nil in Hin|].
    change (f ∈ k :: d.*1) in Hin. rewrite fmap_cons. cbn [fst].
    destruct (decide (k = f)) as [->|Hne]; rewrite filter_cons; cbn [fst].
    + by rewrite decide_True.
    + rewrite decide_False by done. apply IH.
      apply elem_of_cons in Hin as [?|?]; [done|done].
  - rewrite filter_app, fmap_app, filter_cons. cbn [fst].
    rewrite decide_True by done. split.
    + intros [_ [=]]%app_eq_nil.
    + apply Forall_app. split; [|by repeat constructor].
      rewrite filter_none; [constructor|]. apply Forall_forall.
      intros [k w] Hkw Heq. simpl in Heq. subst k. apply Hin.
      apply list_elem_of_fmap. by exists (f, w).
Qed.

(** In a frame with distinct labels, a label selects at most its column. *)
Lemma df_cols_NoDup df f :
  NoDup (df_names df) →
  df_cols df f = match df_col df f with Some col => [col] | None => [] end.
Proof.
  unfold df_names, df_cols, df_col.
  induction (columns df) as [|[k w] d IH]; [done|].
  rewrite fmap_cons. cbn [fst]. intros [Hk Hnd]%NoDup_cons.
  rewrite filter_cons. cbn [fst dict_get].
  destruct (decide (k = f)) as [->|Hne].
  - rewrite fmap_cons. cbn [snd]. f_equal.
    rewrite filter_none; [done|]. apply Forall_forall.
    intros [k' w'] Hin Heq. simpl in Heq. subst k'. apply Hk.
    apply list_elem_of_fmap. by exists (f, w').
  - by apply IH.
Qed.

Lemma df_cols_nil df f : df_col df f = None ↔ df_cols df f = [].
Proof.
  unfold df_cols, df_col.
  induction (columns df) as [|[k w] d IH]; [done|].
  rewrite filter_cons. cbn [fst dict_get].
  destruct (decide (k = f)); [by rewrite fmap_cons|done].
Qed.

Lemma df_wf_setitem df f col :
  df_wf df → length col = nrows df → df_wf (df_setitem df f col).
Proof.
  intros [Hnames Hcols] Hlen. split.
  - rewrite df_names_setitem. case_decide; [done|].
    apply NoDup_app. split_and!; [done| |apply NoDup_singleton].
    intros x Hx ->%list_elem_of_singleton. done.
  - unfold df_setitem. cbn [columns nrows]. case_decide.
    + apply Forall_fmap. eapply Forall_impl; [done|].
      intros c Hc. simpl. by case_decide.
    + apply Forall_app. split; [done|]. by repeat constructor.
Qed.

Lemma df_wf_col_length df f col :
  df_wf df → df_col df f = Some col → length col = nrows df.
Proof.
  intros [_ Hcols]. unfold df_col.
  induction Hcols as [|[k c] d Hc _ IH]; simpl; [done|].
  destruct (decide (k = f)); [by intros [= <-]|done].
Qed.

Lemma length_series_mul col k : length (series_mul col k) = length col.
Proof. apply length_fmap. Qed.

Lemma series_mul_Int (uids : list Z) k :
  series_mul (Int <$> uids) k = Int <$> ((λ u, wrap64 (u * k)) <$> uids).
Proof. unfold series_mul. by rewrite <- !list_fmap_compose. Qed.

Lemma wrap64_int64 z : int64 z → wrap64 z = z.
Proof.
  unfold int64, wrap64.
  change (2 ^ 63) with 9223372036854775808.
  change (2 ^ 64) with 18446744073709551616.
  intros Hz. rewrite Z.mod_small by lia. lia.
Qed.

(** One turn of the loop: a known feature assigns its column, any other
    name leaves the frame as it is. *)
Lemma add_historical_feature_known df f ucol :
  f ∈ all_features → df_cols df "user_id" = [ucol] →
  add_historical_feature df f =
  Ok (df_setitem df f (series_mul ucol (coefficient f))).
Proof.
  intros Hf%elem_of_all_features Hu.
  unfold add_historical_feature, df_getitem. rewrite Hu.
  destruct Hf as [-> | [-> | ->]]; reflexivity.
Qed.

Lemma df_cols_of_wf df f col :
  df_wf df → df_col df f = Some col → df_cols df f = [col].
Proof. intros [Hnd _] Hcol. by rewrite df_cols_NoDup, Hcol. Qed.

Lemma add_historical_feature_unknown df f :
  f ∉ all_features → add_historical_feature df f = Ok df.
Proof.
  rewrite elem_of_all_features. intros Hf. unfold add_historical_feature.
  rewrite !decide_False by tauto. done.
Qed.

Lemma historical_loop (features : list string) df ucol :
  df_wf df → df_col df "user_id" = Some ucol →
  ∃ out,
    for_each add_historical_feature df features = Ok out
    ∧ df_wf out ∧ nrows out = nrows df
    ∧ df_col out "user_id" = Some ucol
    ∧ (∀ f, f ∈ all_features →
         f ∈ features ∨ df_col df f = Some (series_mul ucol (coefficient f)) →
         df_col out f = Some (series_mul ucol (coefficient f)))
    ∧ (∀ f, f ∉ features ∨ f ∉ all_features → df_col out f = df_col df f).
Proof.
  revert df. induction features as [|f features IH]; intros df Hwf Hu; simpl.
  - exists df. split_and!; try done.
    intros f _ [[]%elem_of_nil|]; done.
  - destruct (decide (f ∈ all_features)) as [Hf|Hf].
    + rewrite (add_historical_feature_known df f ucol)
        by (by try apply df_cols_of_wf). simpl.
      assert (f ≠ "user_id") as Hne.
      { apply elem_of_all_features in Hf. naive_solver. }
      set (df' := df_setitem df f (series_mul ucol (coefficient f))).
      destruct (IH df') as (out & Hout & Hwf' & Hn & Hu' & Hknown & Hframe).
      { apply df_wf_setitem; [done|].
        rewrite length_series_mul. by eapply df_wf_col_length. }
      { unfold df'. by rewrite df_col_setitem_ne. }
      exists out. split_and!; try done.
      * intros g Hg [Hin | Hcol].
        -- apply elem_of_cons in Hin as [-> | Hin].
           ++ apply Hknown; [done|]. right. apply df_col_setitem_eq.
           ++ apply Hknown; auto.
        -- destruct (decide (f = g)) as [<- | Hfg].
           ++ apply Hknown; [done|]. right. apply df_col_setitem_eq.
           ++ apply Hknown; [done|]. right.
              unfold df'. by rewrite df_col_setitem_ne.
      * intros g Hg.
        assert (f ≠ g) as Hfg by (intros ->; set_solver).
        rewrite Hframe by set_solver. unfold df'. by rewrite df_col_setitem_ne.
    + rewrite add_historical_feature_unknown by done. simpl.
      destruct (IH df) as (out & Hout & Hwf' & Hn & Hu' & Hknown & Hframe);
        [done..|].
      exists out. split_and!; try done.
      * intros g Hg [Hin | Hcol]; [|by apply Hknown; auto].
        apply elem_of_cons in Hin as [-> | Hin]; [done|]. apply Hknown; auto.
      * intros g Hg. apply Hframe. set_solver.
Qed.

End historical.

Section online.
Implicit Types (f : string) (uid : Z) (d : list (string * Z)).

Lemma add_online_feature_known uid d f :
  f ∈ all_features →
  add_online_feature uid d f = dict_set d f (uid * coefficient f).
Proof.
  intros Hf%elem_of_all_features.
  destruct Hf as [-> | [-> | ->]]; reflexivity.
Qed.

Lemma add_online_feature_unknown uid d f :
  f ∉ all_features → add_online_feature uid d f = d.
Proof.
  rewrite elem_of_all_features. intros Hf. unfold add_online_feature.
  rewrite !decide_False by tauto. done.
Qed.

Lemma online_loop (features : list string) uid d :
  dict_get d "user_id" = Some uid →
  let out := foldl (add_online_feature uid) d features in
  dict_get out "user_id" = Some uid
  ∧ (∀ f, f ∈ all_features →
       f ∈ features ∨ dict_get d f = Some (uid * coefficient f) →
       dict_get out f = Some (uid * coefficient f))
  ∧ (∀ f, f ∉ features ∨ f ∉ all_features → dict_get out f = dict_get d f).
Proof.
  revert d. induction features as [|f features IH]; intros d Hu; simpl.
  - split_and!; try done. intros f _ [[]%elem_of_nil|]; done.
  - destruct (decide (f ∈ all_features)) as [Hf|Hf].
    + rewrite add_online_feature_known by done.
      assert (f ≠ "user_id") as Hne.
      { apply elem_of_all_features in Hf. naive_solver. }
      destruct (IH (dict_set d f (uid * coefficient f)))
        as (Hu' & Hknown & Hframe).
      { by rewrite dict_get_set_ne. }
      split_and!; [done|..].
      * intros g Hg [Hin | Hcol].
        -- apply elem_of_cons in Hin as [-> | Hin].
           ++ apply Hknown; [done|]. right. apply dict_get_set_eq.
           ++ apply Hknown; auto.
        -- destruct (decide (f = g)) as [<- | Hfg].
           ++ apply Hknown; [done|]. right. apply dict_get_set_eq.
           ++ apply Hknown; [done|]. right. by rewrite dict_get_set_ne.
      * intros g Hg.
        assert (f ≠ g) as Hfg by (intros ->; set_solver).
        rewrite Hframe by set_solver. by rewrite dict_get_set_ne.
    + rewrite add_online_feature_unknown by done.
      destruct (IH d) as (Hu' & Hknown & Hframe); [done|].
      split_and!; [done|..].
      * intros g Hg [Hin | Hcol]; [|by apply Hknown; auto].
        apply elem_of_cons in Hin as [-> | Hin]; [done|]. apply Hknown; auto.
      * intros g Hg. apply Hframe. set_solver.
Qed.

Lemma online_record_spec (features : list string) uid :
  dict_get (online_record features uid) "user_id" = Some uid
  ∧ (∀ f, f ∈ all_features → f ∈ features →
       dict_get (online_record features uid) f = Some (uid * coefficient f))
  ∧ (∀ f, f ≠ "user_id" → f ∉ features ∨ f ∉ all_features →
       dict_get (online_record features uid) f = None).
Proof.
  destruct (online_loop features uid [("user_id", uid)]) as (Hu & Hknown & Hframe);
    [done|].
  split_and!; [done|auto|].
  intros f Hne Hf. unfold online_record. rewrite Hframe by done.
  simpl. by rewrite decide_False.
Qed.

Lemma collect_online (features : list string)
    (entity_rows : list (gmap string Z)) (uids : list Z) :
  Forall2 (λ row uid, row !! "user_id" = Some uid) entity_rows uids →
  collect (feature_dict_of features) entity_rows =
  Ok (online_record features <$> uids).
Proof.
  induction 1 as [|row uid rows uids Hrow _ IH]; [done|].
  cbn [collect]. rewrite IH. unfold feature_dict_of, getitem. by rewrite Hrow.
Qed.

Lemma elem_of_first_occurrences (l : list string) x :
  x ∈ first_occurrences l ↔ x ∈ l.
Proof.
  induction l as [|y l IH]; simpl; [done|].
  rewrite !elem_of_cons, list_elem_of_filter, IH.
  destruct (decide (x = y)); naive_solver.
Qed.

Lemma NoDup_first_occurrences (l : list string) : NoDup (first_occurrences l).
Proof.
  induction l as [|y l IH]; simpl; [constructor|].
  constructor; [|by apply NoDup_filter].
  rewrite list_elem_of_filter. naive_solver.
Qed.

Lemma dict_get_keyed {B} (g : string → B) (names : list string) f :
  dict_get ((λ c, (c, g c)) <$> names) f =
  if decide (f ∈ names) then Some (g f) else None.
Proof.
  induction names as [|c names IH].
  - rewrite decide_False; [done|]. apply not_elem_of_nil.
  - rewrite fmap_cons. cbn [dict_get].
    destruct (decide (c = f)) as [->|Hne].
    + rewrite decide_True; [done|]. left.
    + rewrite IH. destruct (decide (f ∈ names)).
      * rewrite decide_True; [done|]. by right.
      * rewrite decide_False; [done|]. rewrite elem_of_cons. naive_solver.
Qed.

Lemma df_at_of_records (records : list (list (string * Z))) i r f v :
  records !! i = Some r → dict_get r f = Some v →
  df_at (DataFrame_of_records records) f i = Some (Int v).
Proof.
  intros Hr Hv. unfold df_at, df_col, DataFrame_of_records. simpl.
  rewrite dict_get_keyed, decide_True.
  - simpl. by rewrite list_lookup_fmap, Hr; simpl; rewrite Hv.
  - apply elem_of_first_occurrences, list_elem_of_bind.
    exists r. split; [by eapply dict_get_Some_key|by eapply list_elem_of_lookup_2].
Qed.

Lemma df_wf_of_records (records : list (list (string * Z))) :
  df_wf (DataFrame_of_records records).
Proof.
  unfold df_wf, df_names, DataFrame_of_records. simpl. split.
  - rewrite <- list_fmap_compose, list_fmap_id.
    apply NoDup_first_occurrences.
  - apply Forall_fmap, Forall_forall. intros c _. simpl. apply length_fmap.
Qed.

End online.

Section retrieval.
Implicit Types (f : string) (uid : Z) (uids : list Z).

Lemma dict_get_None_key {V} (d : list (string * V)) k :
  dict_get d k = None → k ∉ d.*1.
Proof.
  induction d as [|[k' w] d IH]; simpl; [intros _; apply not_elem_of_nil|].
  destruct (decide (k' = k)) as [->|Hne]; [done|].
  intros H%IH. rewrite not_elem_of_cons. done.
Qed.

Lemma df_col_of_records_None (records : list (list (string * Z))) f :
  Forall (λ r, dict_get r f = None) records →
  df_col (DataFrame_of_records records) f = None.
Proof.
  intros Hnone. unfold df_col, DataFrame_of_records. simpl.
  rewrite dict_get_keyed, decide_False; [done|].
  rewrite elem_of_first_occurrences, list_elem_of_bind.
  intros (r & Hf & Hr). rewrite Forall_forall in Hnone.
  by apply (dict_get_None_key r f (Hnone r Hr)).
Qed.

Lemma simulated_value_coefficient f uid :
  f ∈ all_features → simulated_value f uid = uid * coefficient f.
Proof.
  intros Hf%elem_of_all_features. unfold simulated_value, coefficient.
  destruct Hf as [-> | [-> | ->]]; simpl; lia.
Qed.

(** Both simulations on the same entities: they return, and every known
    requested feature holds the user id scaled by the feature's factor, as
    an int64 product in the historical frame and as a Python integer in the
    online one. *)
Lemma retrieval_spec entity_df entity_rows uids (features : option (list string)) :
  df_wf entity_df →
  df_col entity_df "user_id" = Some (Int <$> uids) →
  Forall2 (λ row uid, row !! "user_id" = Some uid) entity_rows uids →
  ∃ hist onl,
    simulate_historical_features entity_df features = Ok hist
    ∧ simulate_online_features entity_rows features = Ok onl
    ∧ (df_wf hist ∧ nrows hist = nrows entity_df)
    ∧ (df_wf onl ∧ nrows onl = length entity_rows)
    ∧ (∀ i uid, uids !! i = Some uid →
         df_at hist "user_id" i = Some (Int uid)
         ∧ df_at onl "user_id" i = Some (Int uid))
    ∧ (∀ i uid f, uids !! i = Some uid →
         f ∈ default all_features features → f ∈ all_features →
         df_at hist f i = Some (Int (wrap64 (uid * coefficient f)))
         ∧ df_at onl f i = Some (Int (uid * coefficient f)))
    ∧ (∀ f, f ∉ all_features →
         df_col hist f = df_col entity_df f
         ∧ (f ≠ "user_id" → df_col onl f = None)).
Proof.
  intros Hwf Hu Hrows.
  unfold simulate_historical_features, simulate_online_features.
  set (requested := default all_features features).
  destruct (historical_loop requested entity_df (Int <$> uids) Hwf Hu)
    as (hist & Hhist & Hwfh & Hnh & Huh & Hknown & Hframe).
  rewrite Hhist, (collect_online requested entity_rows uids Hrows).
  exists hist, (DataFrame_of_records (online_record requested <$> uids)).
  split_and!; try done.
  - apply df_wf_of_records.
  - simpl. rewrite length_fmap. symmetry. by eapply Forall2_length.
  - intros i uid Hi. split.
    + unfold df_at. rewrite Huh. simpl. by rewrite list_lookup_fmap, Hi.
    + eapply df_at_of_records.
      * by rewrite list_lookup_fmap, Hi.
      * apply online_record_spec.
  - intros i uid f Hi Hreq Hf. split.
    + unfold df_at. rewrite (Hknown f Hf) by auto. simpl.
      rewrite series_mul_Int, !list_lookup_fmap, Hi. done.
    + eapply df_at_of_records.
      * by rewrite list_lookup_fmap, Hi.
      * by apply online_record_spec.
  - intros f Hf. split; [apply Hframe; auto|].
    intros Hne. apply df_col_of_records_None, Forall_fmap, Forall_forall.
    intros uid _. simpl. apply online_record_spec; auto.
Qed.

End retrieval.

Section feature_store_claims.
Implicit Types (f : string) (uid : Z) (uids : list Z).

Lemma engineer_Ok_names raw df :
  engineer_user_activity_features raw = Ok df →
  df_names df =
  ["user_id"; "total_activities"; "unique_products_viewed"; "purchase_count"].
Proof.
  destruct raw as [[uids|] [acts|] [tss|] [pids|]]; try discriminate.
  rewrite engineer_all_keys. case_decide; [discriminate|].
  by intros [= <-].
Qed.

(** C7, as stated, fails: user_id is a column of the engineered frame and
    is not a name of the feature list of the feature view. *)
Lemma feature_list_lacks_user_id :
  ∃ df,
    engineer_user_activity_features sample_batch = Ok df
    ∧ "user_id" ∈ df_names df
    ∧ "user_id" ∉ name <$> features define_feature_view.
Proof.
  eexists. split; [reflexivity|]. split.
  - apply list_elem_of_here.
  - simpl. set_solver.
Qed.

(** C7, amended. Every column name of the engineered frame appears in the
    feature view: user_id as its entity, each of the three counts as a name
    of its feature list; the column names are the entities followed by the
    feature names. *)
Theorem feature_row_fields_in_feature_view raw df c :
  engineer_user_activity_features raw = Ok df →
  c ∈ df_names df →
  df_names df =
    (entities define_feature_view
       ++ (name <$> features define_feature_view))%list
  ∧ ((c = "user_id" ∧ c ∈ entities define_feature_view)
     ∨ (c ≠ "user_id" ∧ c ∈ name <$> features define_feature_view)).
Proof.
  intros Hdf%engineer_Ok_names. rewrite Hdf. intros Hc. split; [done|].
  simpl. set_unfold. naive_solver.
Qed.

Lemma feature_row_fields_in_feature_view_witness :
  df_names (engineered [1] ["view"] ["A"]) =
    (entities define_feature_view
       ++ (name <$> features define_feature_view))%list
  ∧ (("purchase_count" = "user_id"
      ∧ "purchase_count" ∈ entities define_feature_view)
     ∨ ("purchase_count" ≠ "user_id"
        ∧ "purchase_count" ∈ name <$> features define_feature_view)).
Proof.
  apply (feature_row_fields_in_feature_view
           (mk_raw_data (Some [1]) (Some ["view"]) (Some [0]) (Some ["A"]))).
  - reflexivity.
  - vm_compute. do 3 right. left.
Defined.

(** C8, as stated, fails: a requested name outside the three known
    features is skipped by both simulations and is no column of their
    output. *)
Lemma retrieval_unknown_feature_not_filled :
  ∃ hist onl,
    simulate_historical_features sample_entity_df (Some ["clicks"]) = Ok hist
    ∧ simulate_online_features sample_entity_rows (Some ["clicks"]) = Ok onl
    ∧ df_col hist "clicks" = None
    ∧ df_col onl "clicks" = None.
Proof. eexists _, _. split_and!; reflexivity. Qed.

(** C8, amended. For an entity table with an integer user_id column, and
    for entity rows that each carry a user_id, both simulations return a
    frame with one row per entity, in input order; every requested name
    among the three known features is filled with an integer in each of
    these rows, and a name outside the three is skipped: it adds no column
    and changes none. *)
Theorem retrieval_one_row_per_entity entity_df entity_rows uids
    (features : option (list string)) :
  df_wf entity_df →
  df_col entity_df "user_id" = Some (Int <$> uids) →
  Forall2 (λ row uid, row !! "user_id" = Some uid) entity_rows uids →
  ∃ hist onl,
    simulate_historical_features entity_df features = Ok hist
    ∧ simulate_online_features entity_rows features = Ok onl
    ∧ (df_wf hist ∧ nrows hist = nrows entity_df)
    ∧ (df_wf onl ∧ nrows onl = length entity_rows)
    ∧ (∀ i uid, uids !! i = Some uid →
         df_at hist "user_id" i = Some (Int uid)
         ∧ df_at onl "user_id" i = Some (Int uid))
    ∧ (∀ i uid f, uids !! i = Some uid →
         f ∈ default all_features features → f ∈ all_features →
         (∃ v, df_at hist f i = Some (Int v))
         ∧ (∃ v, df_at onl f i = Some (Int v)))
    ∧ (∀ f, f ∉ all_features →
         df_col hist f = df_col entity_df f
         ∧ (f ≠ "user_id" → df_col onl f = None)).
Proof.
  intros Hwf Hu Hrows.
  destruct (retrieval_spec entity_df entity_rows uids features Hwf Hu Hrows)
    as (hist & onl & Hh & Ho & Hwh & Hwo & Hid & Hval & Hskip).
  exists hist, onl. split_and!; try done; try tauto.
  intros i uid f Hi Hreq Hf.
  destruct (Hval i uid f Hi Hreq Hf) as [? ?]. eauto.
Qed.

Lemma sample_entity_df_wf : df_wf sample_entity_df.
Proof.
  split.
  - apply (bool_decide_unpack _). reflexivity.
  - repeat constructor.
Defined.

Lemma sample_entity_rows_user_ids :
  Forall2 (λ (row : gmap string Z) uid, row !! "user_id" = Some uid)
    sample_entity_rows [1; 3; 5].
Proof. repeat constructor. Defined.

Lemma retrieval_one_row_per_entity_witness :
  ∃ hist onl,
    simulate_historical_features sample_entity_df None = Ok hist
    ∧ simulate_online_features sample_entity_rows None = Ok onl
    ∧ (df_wf hist ∧ nrows hist = nrows sample_entity_df)
    ∧ (df_wf onl ∧ nrows onl = length sample_entity_rows)
    ∧ (∀ i uid, [1; 3; 5] !! i = Some uid →
         df_at hist "user_id" i = Some (Int uid)
         ∧ df_at onl "user_id" i = Some (Int uid))
    ∧ (∀ i uid f, [1; 3; 5] !! i = Some uid →
         f ∈ default all_features None → f ∈ all_features →
         (∃ v, df_at hist f i = Some (Int v))
         ∧ (∃ v, df_at onl f i = Some (Int v)))
    ∧ (∀ f, f ∉ all_features →
         df_col hist f = df_col sample_entity_df f
         ∧ (f ≠ "user_id" → df_col onl f = None)).
Proof.
  apply (retrieval_one_row_per_entity sample_entity_df sample_entity_rows
           [1; 3; 5] None).
  - exact sample_entity_df_wf.
  - reflexivity.
  - exact sample_entity_rows_user_ids.
Defined.




End feature_store_claims.

(** ** The theorems at the sample inputs *)

Lemma sample_batch_well_formed : well_formed sample_batch.
Proof. repeat split. Defined.

Lemma sample_relabelled_well_formed : well_formed sample_relabelled.
Proof. repeat split. Defined.

Lemma sample_labels_agree :
  Forall2 same_relevant_label sample_acts sample_relabelled_acts.
Proof.
  repeat constructor; intros H; try reflexivity.
  destruct H as [H | [H | [H | H]]]; discriminate H.
Defined.

Lemma engineer_one_row_per_user_witness :
  ∃ df rows uids,
    engineer_user_activity_features sample_batch = Ok df
    ∧ feature_rows df = Some rows
    ∧ user_id sample_batch = Some uids
    ∧ NoDup (fr_user_id <$> rows)
    ∧ (∀ id, id ∈ fr_user_id <$> rows ↔ id ∈ uids)
    ∧ (∀ row, row ∈ rows →
         fr_total_activities row =
           spec_total_activities (fr_user_id row) (records sample_batch)
         ∧ fr_purchase_count row =
           spec_purchase_count (fr_user_id row) (records sample_batch))
    ∧ (∀ row, row ∈ rows →
         Forall (λ r, ¬ (r_user_id r = fr_user_id row
                         ∧ r_activity_type r = "purchase"))
           (records sample_batch) →
         fr_purchase_count row = 0)
    ∧ (∀ row, row ∈ rows →
         Forall (λ r, ¬ (r_user_id r = fr_user_id row
                         ∧ r_activity_type r = "view"))
           (records sample_batch) →
         fr_unique_products_viewed row = 0).
Proof.
  exact (engineer_one_row_per_user sample_batch sample_batch_well_formed).
Defined.

Lemma engineer_unique_products_viewed_witness :
  ∃ df rows uids,
    engineer_user_activity_features sample_batch = Ok df
    ∧ feature_rows df = Some rows
    ∧ user_id sample_batch = Some uids
    ∧ (∀ id, id ∈ uids → ∃ row, row ∈ rows ∧ fr_user_id row = id)
    ∧ (∀ row, row ∈ rows →
         fr_unique_products_viewed row =
           Z.of_nat (length (remove_dups (r_product_id <$>
             filter (λ r, r_user_id r = fr_user_id row
                          ∧ r_activity_type r = "view")
               (records sample_batch))))).
Proof.
  exact (engineer_unique_products_viewed sample_batch sample_batch_well_formed).
Defined.

Lemma engineer_rows_sorted_witness :
  ∃ df rows,
    engineer_user_activity_features sample_batch = Ok df
    ∧ feature_rows df = Some rows
    ∧ StronglySorted Z.le (fr_user_id <$> rows).
Proof. exact (engineer_rows_sorted sample_batch sample_batch_well_formed). Defined.

Lemma engineer_counts_bounded_witness :
  ∃ df rows,
    engineer_user_activity_features sample_batch = Ok df
    ∧ feature_rows df = Some rows
    ∧ ∀ row, row ∈ rows →
        (0 ≤ fr_total_activities row)%Z
        ∧ (0 ≤ fr_unique_products_viewed row)%Z
        ∧ (0 ≤ fr_purchase_count row)%Z
        ∧ (fr_unique_products_viewed row + fr_purchase_count row
           ≤ fr_total_activities row)%Z.
Proof.
  exact (engineer_counts_bounded sample_batch sample_batch_well_formed).
Defined.

Lemma engineer_irrelevant_labels_witness :
  ∃ df1 df2 rows1 rows2,
    engineer_user_activity_features sample_batch = Ok df1
    ∧ engineer_user_activity_features sample_relabelled = Ok df2
    ∧ feature_rows df1 = Some rows1
    ∧ feature_rows df2 = Some rows2
    ∧ fr_user_id <$> rows1 = fr_user_id <$> rows2
    ∧ fr_unique_products_viewed <$> rows1 = fr_unique_products_viewed <$> rows2
    ∧ fr_purchase_count <$> rows1 = fr_purchase_count <$> rows2
    ∧ rows1 = rows2.
Proof.
  apply (engineer_irrelevant_labels sample_batch sample_relabelled
           sample_acts sample_relabelled_acts).
  - exact sample_batch_well_formed.
  - exact sample_relabelled_well_formed.
  - reflexivity.
  - reflexivity.
  - reflexivity.
  - reflexivity.
  - reflexivity.
  - exact sample_labels_agree.
Defined.

Lemma engineer_rows_strictly_sorted_witness :
  ∃ df rows,
    engineer_user_activity_features sample_batch = Ok df
    ∧ feature_rows df = Some rows
    ∧ StronglySorted Z.lt (fr_user_id <$> rows).
Proof.
  exact (engineer_rows_strictly_sorted sample_batch sample_batch_well_formed).
Defined.

Lemma engineer_zero_default_witness :
  ∃ df rows,
    engineer_user_activity_features sample_batch = Ok df
    ∧ feature_rows df = Some rows
    ∧ ∀ row, row ∈ rows →
        (Forall (λ r, ¬ (r_user_id r = fr_user_id row
                         ∧ r_activity_type r = "view"))
           (records sample_batch) →
         fr_unique_products_viewed row = 0)
        ∧ (Forall (λ r, ¬ (r_user_id r = fr_user_id row
                           ∧ r_activity_type r = "purchase"))
             (records sample_batch) →
           fr_purchase_count row = 0).
Proof. exact (engineer_zero_default sample_batch sample_batch_well_formed). Defined.

(** The frames computed on the scenarios of the specification. *)

Example engineer_sample_batch :
  engineer_user_activity_features sample_batch =
  Ok (mk_DataFrame 3
        [ ("user_id", [Int 1; Int 2; Int 5]);
          ("total_activities", [Int 3; Int 2; Int 1]);
          ("unique_products_viewed", [Int 2; Int 2; Int 0]);
          ("purchase_count", [Int 1; Int 0; Int 0]) ]).
Proof. reflexivity. Qed.

Example engineer_repeated_view :
  engineer_user_activity_features
    (mk_raw_data (Some [4; 4; 4]) (Some ["view"; "view"; "purchase"])
                 (Some [10; 20; 30]) (Some ["G"; "G"; "K"])) =
  Ok (mk_DataFrame 1
        [ ("user_id", [Int 4]);
          ("total_activities", [Int 3]);
          ("unique_products_viewed", [Int 1]);
          ("purchase_count", [Int 1]) ]).
Proof. reflexivity. Qed.

Example engineer_unsorted_users :
  engineer_user_activity_features
    (mk_raw_data (Some [9; -2; 9; 3]) (Some ["click"; "view"; "view"; "purchase"])
                 (Some [1; 2; 3; 4]) (Some ["A"; "B"; "C"; "D"])) =
  Ok (mk_DataFrame 3
        [ ("user_id", [Int (-2); Int 3; Int 9]);
          ("total_activities", [Int 1; Int 1; Int 2]);
          ("unique_products_viewed", [Int 1; Int 0; Int 1]);
          ("purchase_count", [Int 0; Int 1; Int 0]) ]).
Proof. reflexivity. Qed.

Example engineer_length_mismatch :
  engineer_user_activity_features
    (mk_raw_data (Some [1; 2; 3]) (Some ["view"; "view"])
                 (Some [1; 2; 3]) (Some ["A"; "B"; "C"])) =
  Raise length_mismatch.
Proof. reflexivity. Qed.

Example engineer_missing_timestamp :
  engineer_user_activity_features
    (mk_raw_data (Some [1]) (Some ["view"]) None (Some ["A"])) =
  Raise (ValueError "Missing required key: timestamp").
Proof. reflexivity. Qed.

Example simulate_historical_sample :
  simulate_historical_features sample_entity_df None =
  Ok (mk_DataFrame 3
        [ ("user_id", [Int 1; Int 3; Int 5]);
          ("event_timestamp", [Int 1704067200; Int 1703980800; Int 1703894400]);
          ("total_activities", [Int 10; Int 30; Int 50]);
          ("unique_products_viewed", [Int 5; Int 15; Int 25]);
          ("purchase_count", [Int 2; Int 6; Int 10]) ]).
Proof. reflexivity. Qed.

(** A repeated user_id label: [df['user_id']] is a frame of two columns,
    which is not assigned to a new label. *)
Example simulate_historical_repeated_user_id :
  simulate_historical_features
    (mk_DataFrame 1 [("user_id", [Int 1]); ("user_id", [Int 2])])
    (Some ["purchase_count"]) =
  Raise (ValueError
    "Cannot set a DataFrame with multiple columns to the single column purchase_count").
Proof. reflexivity. Qed.

(** A repeated feature label takes the product of the one user_id column in
    each of its columns. *)
Example simulate_historical_repeated_feature :
  simulate_historical_features
    (mk_DataFrame 1 [("purchase_count", [Int 0]); ("user_id", [Int 4]);
                     ("purchase_count", [NaN])])
    (Some ["purchase_count"]) =
  Ok (mk_DataFrame 1 [("purchase_count", [Int 8]); ("user_id", [Int 4]);
                      ("purchase_count", [Int 8])]).
Proof. reflexivity. Qed.

(** The int64 product of the historical frame wraps around; the product of
    Python integers of the online record does not. *)
Example simulate_historical_wraps :
  simulate_historical_features large_entity_df (Some ["total_activities"]) =
  Ok (mk_DataFrame 1
        [ ("user_id", [Int 4611686018427387904]);
          ("total_activities", [Int (-9223372036854775808)]) ]).
Proof. reflexivity. Qed.

Example simulate_online_exact :
  simulate_online_features large_entity_rows (Some ["total_activities"]) =
  Ok (mk_DataFrame 1
        [ ("user_id", [Int 4611686018427387904]);
          ("total_activities", [Int 46116860184273879040]) ]).
Proof. reflexivity. Qed.

Example simulate_online_sample :
  simulate_online_features sample_entity_rows None =
  Ok (mk_DataFrame 3
        [ ("user_id", [Int 1; Int 3; Int 5]);
          ("total_activities", [Int 10; Int 30; Int 50]);
          ("unique_products_viewed", [Int 5; Int 15; Int 25]);
          ("purchase_count", [Int 2; Int 6; Int 10]) ]).
Proof. reflexivity. Qed.

Example simulate_online_no_entities :
  simulate_online_features [] None = Ok (mk_DataFrame 0 []).
Proof. reflexivity. Qed.

Example simulate_online_missing_user_id :
  simulate_online_features [{["user_id" := 1]}; {["uid" := 3]}] None =
  Raise (KeyError "user_id").
Proof. reflexivity. Qed.

(** * Further properties *)

Section engineer_more.
Implicit Types (rs : list RawRecord) (raw : raw_data) (id : Z).

Lemma feature_frame_ext (us : list Z) (f1 f2 f3 g1 g2 g3 : Z → Z) :
  (∀ u, u ∈ us → f1 u = g1 u) → (∀ u, u ∈ us → f2 u = g2 u) →
  (∀ u, u ∈ us → f3 u = g3 u) →
  DataFrame_of_dict
    [ ("user_id", us); ("total_activities", f1 <$> us);
      ("unique_products_viewed", f2 <$> us); ("purchase_count", f3 <$> us) ] =
  DataFrame_of_dict
    [ ("user_id", us); ("total_activities", g1 <$> us);
      ("unique_products_viewed", g2 <$> us); ("purchase_count", g3 <$> us) ].
Proof.
  intros H1 H2 H3.
  rewrite (list_fmap_ext f1 g1 us), (list_fmap_ext f2 g2 us),
    (list_fmap_ext f3 g3 us); [done|..];
    intros i u Hu%list_elem_of_lookup_2; auto.
Qed.

(** The engineered frame of a list of records, column by column. *)
Lemma engineered_spec rs :
  engineered (r_user_id <$> rs) (r_activity_type <$> rs) (r_product_id <$> rs) =
  DataFrame_of_dict
    [ ("user_id", sorted_set (r_user_id <$> rs));
      ("total_activities",
         (λ id, spec_total_activities id rs) <$> sorted_set (r_user_id <$> rs));
      ("unique_products_viewed",
         (λ id, spec_unique_products_viewed id rs)
           <$> sorted_set (r_user_id <$> rs));
      ("purchase_count",
         (λ id, spec_purchase_count id rs) <$> sorted_set (r_user_id <$> rs)) ].
Proof.
  unfold engineered. apply feature_frame_ext; intros id _.
  - apply total_activities_spec.
  - apply unique_products_viewed_spec.
  - apply purchase_count_spec.
Qed.

Lemma sorted_set_perm (l k : list Z) : l ≡ₚ k → sorted_set l = sorted_set k.
Proof. intros Hp. unfold sorted_set. by rewrite (list_to_set_perm_L l k). Qed.

Lemma length_remove_dups_perm (l k : list string) :
  l ≡ₚ k → length (remove_dups l) = length (remove_dups k).
Proof.
  intros Hp. rewrite <- !size_list_to_set_remove_dups.
  by rewrite (list_to_set_perm_L l k).
Qed.

Lemma spec_aggregates_perm rs rs' id :
  rs ≡ₚ rs' →
  spec_total_activities id rs = spec_total_activities id rs'
  ∧ spec_unique_products_viewed id rs = spec_unique_products_viewed id rs'
  ∧ spec_purchase_count id rs = spec_purchase_count id rs'.
Proof.
  intros Hp.
  unfold spec_total_activities, spec_unique_products_viewed, spec_purchase_count.
  split_and!; f_equal.
  - by rewrite Hp.
  - apply length_remove_dups_perm. by rewrite Hp.
  - by rewrite Hp.
Qed.

(** X3. The order of the records of a well-formed batch does not matter:
    two well-formed batches whose records are a permutation of each other
    yield the same frame. *)
Theorem engineer_order_independent raw raw' :
  well_formed raw → well_formed raw' →
  records raw ≡ₚ records raw' →
  engineer_user_activity_features raw = engineer_user_activity_features raw'.
Proof.
  intros Hwf%well_formed_batch_of Hwf'%well_formed_batch_of Hp.
  rewrite Hwf, Hwf', !engineer_batch_of, !engineered_spec.
  rewrite (sorted_set_perm (r_user_id <$> records raw)
                           (r_user_id <$> records raw')) by (by rewrite Hp).
  f_equal. apply feature_frame_ext; intros id _;
    by destruct (spec_aggregates_perm _ _ id Hp) as (? & ? & ?).
Qed.

(** X4. The values of the timestamp column are never read: two batches
    that agree on the other three columns, and whose timestamp columns are
    both absent or of one length, have the same outcome (frame or error). *)
Theorem engineer_ignores_timestamps raw raw' :
  user_id raw = user_id raw' →
  activity_type raw = activity_type raw' →
  product_id raw = product_id raw' →
  length <$> timestamp raw = length <$> timestamp raw' →
  engineer_user_activity_features raw = engineer_user_activity_features raw'.
Proof.
  destruct raw as [u a t p], raw' as [u' a' t' p']; simpl.
  intros <- <- <- Ht.
  destruct u, a, p, t as [tss|], t' as [tss'|]; simpl in Ht;
    try discriminate Ht; try reflexivity.
  injection Ht as Ht. rewrite !engineer_all_keys. by rewrite Ht.
Qed.

Lemma same_views_aggregates rs rs' :
  Forall2 same_views rs rs' →
  r_user_id <$> rs = r_user_id <$> rs'
  ∧ ∀ id,
      length (filter (λ r, r_user_id r = id) rs) =
        length (filter (λ r, r_user_id r = id) rs')
      ∧ r_product_id <$>
          filter (λ r, r_user_id r = id ∧ r_activity_type r = "view") rs =
        r_product_id <$>
          filter (λ r, r_user_id r = id ∧ r_activity_type r = "view") rs'
      ∧ length (filter (λ r, r_user_id r = id
                             ∧ r_activity_type r = "purchase") rs) =
        length (filter (λ r, r_user_id r = id
                             ∧ r_activity_type r = "purchase") rs').
Proof.
  induction 1 as [|r r' rs rs' (Hu & Ha & Hp) _ [IHu IH]]; [done|].
  split; [rewrite !fmap_cons; by f_equal|].
  intros id. destruct (IH id) as (IH1 & IH2 & IH3).
  rewrite !filter_cons, <- Hu, <- Ha.
  split_and!.
  - destruct (decide (r_user_id r = id)); rewrite ?length_cons; lia.
  - destruct (decide (r_user_id r = id ∧ r_activity_type r = "view"))
      as [[_ Hv]|]; [|done].
    rewrite !fmap_cons, (Hp Hv). by f_equal.
  - destruct (decide (r_user_id r = id ∧ r_activity_type r = "purchase"));
      rewrite ?length_cons; lia.
Qed.

(** X5. The product id of a record is read only when its label is view:
    two well-formed batches whose records agree on user and label, and on
    the product wherever the label is view, yield the same frame. *)
Theorem engineer_reads_products_of_views_only raw raw' :
  well_formed raw → well_formed raw' →
  Forall2 same_views (records raw) (records raw') →
  engineer_user_activity_features raw = engineer_user_activity_features raw'.
Proof.
  intros Hwf%well_formed_batch_of Hwf'%well_formed_batch_of
    [Hu Hagg]%same_views_aggregates.
  rewrite Hwf, Hwf', !engineer_batch_of, !engineered_spec, Hu.
  f_equal. apply feature_frame_ext; intros id _;
    destruct (Hagg id) as (H1 & H2 & H3).
  - unfold spec_total_activities. by rewrite H1.
  - unfold spec_unique_products_viewed. by rewrite H2.
  - unfold spec_purchase_count. by rewrite H3.
Qed.

(** X6. When required keys are absent, the error names the first absent
    one in the order user_id, activity_type, timestamp, product_id,
    whatever the lengths of the columns that are present. *)
Theorem engineer_reports_first_missing_key raw i key :
  list_find (λ k, contains raw k = false) required_keys = Some (i, key) →
  engineer_user_activity_features raw = Raise (missing_key key).
Proof.
  destruct raw as [[uids|] [acts|] [tss|] [pids|]]; intros Hfind;
    vm_compute in Hfind; try discriminate Hfind;
    injection Hfind as <- <-; reflexivity.
Qed.

Lemma sum_list_with_indicator (us : list Z) (v : Z) :
  NoDup us → v ∈ us →
  sum_list_with (λ u, if decide (v = u) then 1 else 0)%nat us = 1%nat.
Proof.
  induction 1 as [|u us Hu Hnd IH]; [by intros ?%elem_of_nil|].
  intros Hv. simpl. destruct (decide (v = u)) as [->|Hne].
  - assert (sum_list_with (λ u0, if decide (u = u0) then 1 else 0)%nat us
            = 0%nat) as ->; [|done].
    clear IH Hv Hnd. induction us as [|w us IH]; [done|]. simpl.
    apply not_elem_of_cons in Hu as [Hne Hu].
    rewrite decide_False by done. by apply IH.
  - apply elem_of_cons in Hv as [?|Hv]; [done|]. by rewrite IH.
Qed.

Lemma sum_counts {A} (f : A → Z) (l : list A) (us : list Z) :
  NoDup us → (∀ x, x ∈ l → f x ∈ us) →
  sum_list_with (λ u, length (filter (λ x, f x = u) l)) us = length l.
Proof.
  intros Hnd. induction l as [|x l IH]; intros Hin.
  - clear. induction us as [|u us IHus]; [done|].
    cbn [sum_list_with]. rewrite IHus, filter_nil. done.
  - cbn [length]. rewrite <- IH by (intros y Hy; apply Hin; by right).
    rewrite <- Nat.add_1_l.
    rewrite <- (sum_list_with_indicator us (f x) Hnd) by (apply Hin; left).
    clear. induction us as [|u us IHus]; [done|]. cbn [sum_list_with].
    rewrite IHus, filter_cons. destruct (decide (f x = u)); simpl; lia.
Qed.

Lemma sum_Z_of_nat {A} (g : A → nat) (l : list A) :
  sum_Z ((λ u, Z.of_nat (g u)) <$> l) = Z.of_nat (sum_list_with g l).
Proof.
  induction l as [|x l IH]; [done|].
  rewrite fmap_cons. unfold sum_Z in *. cbn [foldr sum_list_with].
  rewrite IH. lia.
Qed.

Lemma filter_and {A} (P Q : A → Prop) `{!∀ x, Decision (P x)}
    `{!∀ x, Decision (Q x)} (l : list A) :
  filter (λ x, P x ∧ Q x) l = filter P (filter Q l).
Proof.
  induction l as [|x l IH]; [done|]. rewrite !filter_cons.
  destruct (decide (Q x)).
  - rewrite filter_cons. destruct (decide (P x)).
    + rewrite decide_True by done. by f_equal.
    + rewrite decide_False by tauto. done.
  - rewrite decide_False by tauto. done.
Qed.

(** X7. Every record of a well-formed batch is counted for exactly one
    user: over the rows of the frame, total_activities sums to the number
    of records of the batch, and purchase_count to the number of its
    purchase records. *)
Theorem engineer_counts_add_up raw :
  well_formed raw →
  ∃ df rows,
    engineer_user_activity_features raw = Ok df
    ∧ feature_rows df = Some rows
    ∧ sum_Z (fr_total_activities <$> rows) = Z.of_nat (length (records raw))
    ∧ sum_Z (fr_purchase_count <$> rows) =
        Z.of_nat (length (filter (λ r, r_activity_type r = "purchase")
                            (records raw))).
Proof.
  intros Hwf. destruct (engineer_well_formed raw Hwf) as (df & Hdf & Hrows).
  exists df, (expected_rows (records raw)). split_and!; [done..| |].
  - unfold expected_rows. rewrite <- list_fmap_compose.
    unfold spec_total_activities, compose. simpl.
    rewrite (sum_Z_of_nat (λ u, length (filter (λ r, r_user_id r = u) _))).
    f_equal. apply sum_counts; [apply NoDup_sorted_set|].
    intros r Hr. apply elem_of_sorted_set, list_elem_of_fmap. eauto.
  - unfold expected_rows. rewrite <- list_fmap_compose.
    unfold spec_purchase_count, compose. simpl.
    rewrite (sum_Z_of_nat (λ u, length (filter
      (λ r, r_user_id r = u ∧ r_activity_type r = "purchase") _))).
    f_equal.
    rewrite <- (sum_counts r_user_id
      (filter (λ r, r_activity_type r = "purchase") (records raw))
      (sorted_set (r_user_id <$> records raw))).
    + clear. induction (sorted_set _) as [|u us IH]; [done|].
      cbn [sum_list_with].
      by rewrite IH, (filter_and (λ r, r_user_id r = u)
                        (λ r, r_activity_type r = "purchase")).
    + apply NoDup_sorted_set.
    + intros r [_ Hr]%list_elem_of_filter.
      apply elem_of_sorted_set, list_elem_of_fmap. eauto.
Qed.

Lemma engineer_Ok_inv raw df :
  engineer_user_activity_features raw = Ok df →
  ∃ uids acts tss pids,
    raw = mk_raw_data (Some uids) (Some acts) (Some tss) (Some pids)
    ∧ df = engineered uids acts pids.
Proof.
  destruct raw as [[uids|] [acts|] [tss|] [pids|]]; try discriminate.
  rewrite engineer_all_keys. case_decide; [discriminate|].
  intros [= <-]. by exists uids, acts, tss, pids.
Qed.

Lemma length_sorted_set (l : list Z) :
  length (sorted_set l) = length (remove_dups l).
Proof.
  unfold sorted_set. rewrite merge_sort_Permutation.
  rewrite <- (size_list_to_set (C := gset Z) (remove_dups l))
    by apply NoDup_remove_dups.
  unfold size, set_size. simpl. do 2 f_equal. apply set_eq. intros x.
  by rewrite !elem_of_list_to_set, elem_of_remove_dups.
Qed.

(** X8. Whenever the function returns, the frame is well formed (four
    distinct column names, each column with one cell per row), every cell
    is an integer (none is NaN), and the number of rows is the number of
    distinct user ids of the batch, at most its number of records. *)
Theorem engineer_frame_shape raw df :
  engineer_user_activity_features raw = Ok df →
  df_wf df
  ∧ (∀ col_name col c, df_col df col_name = Some col → c ∈ col → ∃ z, c = Int z)
  ∧ ∃ uids, user_id raw = Some uids
      ∧ nrows df = length (remove_dups uids)
      ∧ (nrows df ≤ length uids)%nat.
Proof.
  intros (uids & acts & tss & pids & -> & ->)%engineer_Ok_inv. split_and!.
  - split.
    + apply (bool_decide_unpack _). reflexivity.
    + unfold engineered, DataFrame_of_dict. simpl.
      repeat constructor; simpl; by rewrite !length_fmap.
  - intros col_name col c. unfold df_col, engineered, DataFrame_of_dict. simpl.
    repeat case_decide; try discriminate; intros [= <-];
      intros (z & -> & _)%list_elem_of_fmap; eauto.
  - exists uids. split; [done|].
    unfold engineered, DataFrame_of_dict. simpl.
    rewrite length_sorted_set. split; [done|]. apply length_remove_dups_le.
Qed.

End engineer_more.

Section helpers.
Implicit Types (raw : raw_data) (u : Z).

Lemma filter_length_0 {A} (P : A → Prop) `{!∀ x, Decision (P x)} (l : list A) :
  length (filter P l) = 0%nat ↔ ∀ x, x ∈ l → ¬ P x.
Proof.
  split.
  - intros Hlen%nil_length_inv x Hx HP.
    by apply (filter_nil_not_elem_of P l x).
  - intros Hnone. rewrite filter_none; [done|]. by apply Forall_forall.
Qed.

Lemma filter_nonempty {A} (P : A → Prop) `{!∀ x, Decision (P x)} (l : list A) :
  filter P l ≠ [] → ∃ x, x ∈ l ∧ P x.
Proof.
  destruct (filter P l) as [|x k] eqn:Hf; [done|]. intros _.
  assert (x ∈ filter P l) as [? ?]%list_elem_of_filter by (rewrite Hf; left).
  eauto.
Qed.

Lemma total_fold_is_Some (uids : list Z) (acc : gmap Z Z) u :
  is_Some (foldl count_activity acc uids !! u) ↔ is_Some (acc !! u) ∨ u ∈ uids.
Proof.
  revert acc. induction uids as [|v uids IH]; intros acc; simpl.
  - rewrite elem_of_nil. tauto.
  - rewrite IH, elem_of_cons. unfold count_activity.
    destruct (decide (v = u)) as [->|Hne].
    + rewrite lookup_insert_eq. split; eauto.
    + rewrite lookup_insert_ne by done. naive_solver.
Qed.

Lemma purchase_fold_is_Some (l : list (Z * string)) (acc : gmap Z Z) u :
  is_Some (foldl add_purchase acc l !! u) ↔
  is_Some (acc !! u) ∨ ∃ r, r ∈ l ∧ r.1 = u ∧ r.2 = "purchase".
Proof.
  revert acc. induction l as [|[v a] l IH]; intros acc; simpl.
  - split; [auto|]. intros [?|(r & []%elem_of_nil & _)]; done.
  - rewrite IH. unfold add_purchase.
    destruct (decide (a = "purchase")) as [->|Ha].
    + destruct (decide (v = u)) as [->|Hne].
      * rewrite lookup_insert_eq. split; [|eauto]. intros _. right.
        exists (u, "purchase"). split; [left|done].
      * rewrite lookup_insert_ne by done. set_solver.
    + set_solver.
Qed.

Lemma viewed_fold_is_Some (l : list (Z * string * string))
    (acc : gmap Z (gset string)) u :
  is_Some (foldl add_viewed_product acc l !! u) ↔
  is_Some (acc !! u) ∨ ∃ r, r ∈ l ∧ r.1.1 = u ∧ r.1.2 = "view".
Proof.
  revert acc. induction l as [|[[v a] p] l IH]; intros acc; simpl.
  - split; [auto|]. intros [?|(r & []%elem_of_nil & _)]; done.
  - rewrite IH. unfold add_viewed_product.
    destruct (decide (a = "view")) as [->|Ha].
    + destruct (decide (v = u)) as [->|Hne].
      * rewrite lookup_alter_eq.
        assert (is_Some ((λ products : gset string, products ∪ {[p]}) <$>
          match acc !! u with
          | Some _ => acc
          | None => <[u:=∅]> acc
          end !! u)) as Hsome.
        { destruct (acc !! u) eqn:Hacc; rewrite ?Hacc, ?lookup_insert_eq; eauto. }
        split; [|eauto]. intros _. right.
        exists (u, "view", p). split; [left|done].
      * rewrite lookup_alter_ne by done.
        assert (match acc !! v with
                | Some _ => acc
                | None => <[v:=∅]> acc
                end !! u = acc !! u) as ->.
        { destruct (acc !! v); [done|]. by rewrite lookup_insert_ne. }
        set_solver.
    + set_solver.
Qed.

(** X9. calculate_total_activities returns exactly when the batch has a
    user_id column, whatever the other columns are; its dict then has one
    key per user id of the column, mapped to the number of occurrences of
    that id, and no other key. *)
Theorem calculate_total_activities_spec raw :
  ((∃ m, calculate_total_activities raw = Ok m) ↔ is_Some (user_id raw))
  ∧ ∀ uids m u,
      user_id raw = Some uids → calculate_total_activities raw = Ok m →
      m !! u =
        if decide (u ∈ uids)
        then Some (Z.of_nat (length (filter (λ v, v = u) uids)))
        else None.
Proof.
  unfold calculate_total_activities. split.
  - destruct (user_id raw); split; eauto; intros [m ?]; done.
  - intros uids m u -> [= <-].
    pose proof (total_fold uids ∅ u) as Hval.
    pose proof (total_fold_is_Some uids ∅ u) as Hsome.
    rewrite lookup_empty in Hval, Hsome. simpl in Hval.
    destruct (decide (u ∈ uids)) as [Hin|Hnin].
    + destruct (proj2 Hsome (or_intror Hin)) as [n Hn].
      rewrite Hn in Hval |- *. simpl in Hval. by rewrite Hval.
    + apply eq_None_not_Some. rewrite Hsome. intros [[? [=]]|?]; done.
Qed.

(** X10. calculate_purchase_count returns exactly when the batch has the
    user_id and activity_type columns; it pairs them up to the shorter one
    without comparing their lengths, and its dict maps each user with at
    least one purchase among these pairs to their number; a user without a
    purchase is no key of the dict. *)
Theorem calculate_purchase_count_spec raw :
  ((∃ m, calculate_purchase_count raw = Ok m)
     ↔ is_Some (user_id raw) ∧ is_Some (activity_type raw))
  ∧ ∀ uids acts m u,
      user_id raw = Some uids → activity_type raw = Some acts →
      calculate_purchase_count raw = Ok m →
      m !! u =
        let n := length (filter (λ r, r.1 = u ∧ r.2 = "purchase")
                           (zip uids acts)) in
        if decide (n = 0%nat) then None else Some (Z.of_nat n).
Proof.
  unfold calculate_purchase_count. split.
  - destruct (user_id raw), (activity_type raw); split; eauto;
      try (intros [m ?]; done); intros [[? [=]] [? [=]]]; done.
  - intros uids acts m u -> -> [= <-]. simpl.
    pose proof (purchase_fold (zip uids acts) ∅ u) as Hval.
    pose proof (purchase_fold_is_Some (zip uids acts) ∅ u) as Hsome.
    rewrite lookup_empty in Hval, Hsome. simpl in Hval.
    destruct (decide (length (filter _ (zip uids acts)) = 0%nat)) as [H0|H0].
    + apply eq_None_not_Some. rewrite Hsome.
      intros [[? [=]]|(r & Hr & HP)].
      by apply (proj1 (filter_length_0 _ _) H0 r Hr).
    + assert (is_Some (foldl add_purchase ∅ (zip uids acts) !! u)) as [n Hn].
      { apply Hsome. right.
        destruct (filter_nonempty (λ r, r.1 = u ∧ r.2 = "purchase")
                    (zip uids acts)) as (r & Hr & HP); [|by exists r].
        intros Hnil. by rewrite Hnil in H0. }
      rewrite Hn in Hval |- *. simpl in Hval. by rewrite Hval.
Qed.

(** X11. calculate_unique_products_viewed returns exactly when the batch
    has the user_id, activity_type and product_id columns; it reads them
    up to the shortest one, and its dict maps each user with at least one
    view record there to the number of distinct products of these records;
    a user without a view record is no key of the dict. *)
Theorem calculate_unique_products_viewed_spec raw :
  ((∃ m, calculate_unique_products_viewed raw = Ok m)
     ↔ is_Some (user_id raw) ∧ is_Some (activity_type raw)
       ∧ is_Some (product_id raw))
  ∧ ∀ uids acts pids m u,
      user_id raw = Some uids → activity_type raw = Some acts →
      product_id raw = Some pids →
      calculate_unique_products_viewed raw = Ok m →
      m !! u =
        let viewed := snd <$> filter (λ r, r.1.1 = u ∧ r.1.2 = "view")
                                (zip3 uids acts pids) in
        if decide (viewed = []) then None
        else Some (Z.of_nat (length (remove_dups viewed))).
Proof.
  unfold calculate_unique_products_viewed. split.
  - destruct (user_id raw), (activity_type raw), (product_id raw);
      split; eauto; try (intros [m ?]; done);
      intros ([? [=]] & [? [=]] & [? [=]]); done.
  - intros uids acts pids m u -> -> -> [= <-]. simpl.
    set (l := zip3 uids acts pids).
    pose proof (viewed_fold l ∅ u) as Hval.
    pose proof (viewed_fold_is_Some l ∅ u) as Hsome.
    rewrite lookup_empty in Hval, Hsome. simpl in Hval.
    rewrite lookup_fmap.
    destruct (decide (snd <$> filter _ l = [])) as [H0|H0].
    + apply fmap_nil_inv in H0.
      assert (foldl add_viewed_product ∅ l !! u = None) as ->; [|done].
      apply eq_None_not_Some. rewrite Hsome.
      intros [[? [=]]|(r & Hr & HP)].
      by apply (filter_nil_not_elem_of _ _ r H0 HP).
    + assert (is_Some (foldl add_viewed_product ∅ l !! u)) as [s Hs].
      { apply Hsome. right.
        destruct (filter_nonempty (λ r, r.1.1 = u ∧ r.1.2 = "view") l)
          as (r & Hr & HP); [|by exists r].
        intros Hnil. by rewrite Hnil in H0. }
      rewrite Hs in Hval |- *. simpl in Hval |- *.
      rewrite (left_id_L ∅ (∪)) in Hval.
      by rewrite Hval, size_list_to_set_remove_dups.
Qed.

(** X12. The two helpers that pair columns do not compare their lengths:
    on columns of different lengths they raise nothing and ignore every
    record past the end of the shortest column they read. *)
Theorem helpers_read_common_prefix uids acts pids tss opt_pids :
  calculate_purchase_count (mk_raw_data (Some uids) (Some acts) tss opt_pids) =
    calculate_purchase_count
      (mk_raw_data (Some (take (Nat.min (length uids) (length acts)) uids))
                   (Some (take (Nat.min (length uids) (length acts)) acts))
                   tss opt_pids)
  ∧ calculate_unique_products_viewed
      (mk_raw_data (Some uids) (Some acts) tss (Some pids)) =
    calculate_unique_products_viewed
      (mk_raw_data
         (Some (take (Nat.min (Nat.min (length uids) (length acts))
                        (length pids)) uids))
         (Some (take (Nat.min (Nat.min (length uids) (length acts))
                        (length pids)) acts))
         tss
         (Some (take (Nat.min (Nat.min (length uids) (length acts))
                        (length pids)) pids))).
Proof.
  unfold calculate_purchase_count, calculate_unique_products_viewed, zip3.
  simpl. split.
  - do 2 f_equal. symmetry. by apply zip_with_take_both'.
  - do 3 f_equal. symmetry.
    rewrite <- zip_with_take.
    apply zip_with_take_both'; rewrite ?length_zip_with; lia.
Qed.

Lemma helpers_batch_of (rs : list RawRecord) :
  ∃ t v p,
    calculate_total_activities (batch_of rs) = Ok t
    ∧ calculate_unique_products_viewed (batch_of rs) = Ok v
    ∧ calculate_purchase_count (batch_of rs) = Ok p
    ∧ ∀ u, default 0 (t !! u) = spec_total_activities u rs
           ∧ default 0 (v !! u) = spec_unique_products_viewed u rs
           ∧ default 0 (p !! u) = spec_purchase_count u rs.
Proof.
  eexists _, _, _. split_and!; [reflexivity..|].
  intros u. split_and!.
  - apply total_activities_spec.
  - apply unique_products_viewed_spec.
  - apply purchase_count_spec.
Qed.

Lemma remove_dups_app_bounds (l1 l2 : list string) :
  (length (remove_dups l1) ≤ length (remove_dups (l1 ++ l2))
   ∧ length (remove_dups l2) ≤ length (remove_dups (l1 ++ l2))
   ∧ length (remove_dups (l1 ++ l2))
     ≤ length (remove_dups l1) + length (remove_dups l2))%nat.
Proof.
  rewrite <- !size_list_to_set_remove_dups, list_to_set_app_L.
  set (X := list_to_set l1 : gset string).
  set (Y := list_to_set l2 : gset string).
  split_and!.
  - apply subseteq_size. set_solver.
  - apply subseteq_size. set_solver.
  - rewrite size_union_alt.
    assert (size (Y ∖ X) ≤ size Y)%nat by (apply subseteq_size; set_solver).
    lia.
Qed.

(** X13. The helpers compose over concatenated batches: for the records of
    one batch followed by those of another, the activity and purchase
    counts of a user (read with default 0) are the sums of the counts on
    the two parts, and the number of distinct viewed products is at least
    that on either part and at most their sum. *)
Theorem helpers_of_concatenation (rs1 rs2 : list RawRecord) :
  ∃ t1 t2 t12 v1 v2 v12 p1 p2 p12,
    (calculate_total_activities (batch_of rs1) = Ok t1
     ∧ calculate_total_activities (batch_of rs2) = Ok t2
     ∧ calculate_total_activities (batch_of (rs1 ++ rs2)) = Ok t12)
    ∧ (calculate_unique_products_viewed (batch_of rs1) = Ok v1
       ∧ calculate_unique_products_viewed (batch_of rs2) = Ok v2
       ∧ calculate_unique_products_viewed (batch_of (rs1 ++ rs2)) = Ok v12)
    ∧ (calculate_purchase_count (batch_of rs1) = Ok p1
       ∧ calculate_purchase_count (batch_of rs2) = Ok p2
       ∧ calculate_purchase_count (batch_of (rs1 ++ rs2)) = Ok p12)
    ∧ ∀ u,
        default 0 (t12 !! u) = default 0 (t1 !! u) + default 0 (t2 !! u)
        ∧ default 0 (p12 !! u) = default 0 (p1 !! u) + default 0 (p2 !! u)
        ∧ (default 0 (v1 !! u) ≤ default 0 (v12 !! u))%Z
        ∧ (default 0 (v2 !! u) ≤ default 0 (v12 !! u))%Z
        ∧ (default 0 (v12 !! u) ≤ default 0 (v1 !! u) + default 0 (v2 !! u))%Z.
Proof.
  destruct (helpers_batch_of rs1) as (t1 & v1 & p1 & Ht1 & Hv1 & Hp1 & H1).
  destruct (helpers_batch_of rs2) as (t2 & v2 & p2 & Ht2 & Hv2 & Hp2 & H2).
  destruct (helpers_batch_of (rs1 ++ rs2))
    as (t12 & v12 & p12 & Ht12 & Hv12 & Hp12 & H12).
  exists t1, t2, t12, v1, v2, v12, p1, p2, p12. split_and!; try done.
  intros u. destruct (H1 u) as (-> & -> & ->), (H2 u) as (-> & -> & ->),
    (H12 u) as (-> & -> & ->).
  unfold spec_total_activities, spec_unique_products_viewed,
    spec_purchase_count.
  rewrite !filter_app, fmap_app, !length_app.
  pose proof (remove_dups_app_bounds
    (r_product_id <$>
       filter (λ r, r_user_id r = u ∧ r_activity_type r = "view") rs1)
    (r_product_id <$>
       filter (λ r, r_user_id r = u ∧ r_activity_type r = "view") rs2)).
  lia.
Qed.

End helpers.

Section ordered_dicts.
Context {V : Type}.
Implicit Types (d : list (string * V)) (k : string) (v : V).

Lemma dict_set_same d k v : dict_get d k = Some v → dict_set d k v = d.
Proof.
  induction d as [|[k' w] d IH]; simpl; [done|].
  destruct (decide (k' = k)) as [->|Hne].
  - by intros [= ->].
  - intros Hd. by rewrite IH.
Qed.

Lemma dict_get_is_Some d k : is_Some (dict_get d k) ↔ k ∈ d.*1.
Proof.
  split; [intros [v Hv]; by eapply dict_get_Some_key|].
  induction d as [|[k' w] d IH]; simpl; [by intros ?%elem_of_nil|].
  destruct (decide (k' = k)) as [->|Hne]; [eauto|].
  intros [?|?]%elem_of_cons; [done|auto].
Qed.

(** Two dicts with the same keys in the same order and the same value at
    every key are the same dict. *)
Lemma dict_ext d1 d2 :
  NoDup d1.*1 → d1.*1 = d2.*1 →
  (∀ k, k ∈ d1.*1 → dict_get d1 k = dict_get d2 k) → d1 = d2.
Proof.
  revert d2. induction d1 as [|[k v] d1 IH]; intros [|[k' v'] d2]; simpl;
    try done.
  intros [Hk Hnd]%NoDup_cons [= <- Hkeys] Hget.
  pose proof (Hget k (list_elem_of_here _ _)) as Hv.
  rewrite !decide_True in Hv by done. injection Hv as <-.
  f_equal. apply IH; [done..|].
  intros k0 Hk0. specialize (Hget k0 (list_elem_of_further _ _ _ Hk0)).
  rewrite !decide_False in Hget by (intros ->; done). done.
Qed.

End ordered_dicts.

Lemma filter_all {A} (P : A → Prop) `{!∀ a, Decision (P a)} (l : list A) :
  (∀ a, a ∈ l → P a) → filter P l = l.
Proof.
  induction l as [|a l IH]; intros HP; [done|].
  rewrite filter_cons, decide_True by (apply HP; left).
  f_equal. apply IH. intros b Hb. apply HP. by right.
Qed.

Section first_occurrences_facts.
Implicit Types (l k : list string) (x : string).

Lemma first_occurrences_NoDup l : NoDup l → first_occurrences l = l.
Proof.
  induction 1 as [|x l Hx _ IH]; simpl; [done|].
  rewrite IH. f_equal. apply filter_all. intros y Hy ->. done.
Qed.

Lemma first_occurrences_app l k :
  first_occurrences (l ++ k) =
  (first_occurrences l ++ filter (λ y, y ∉ l) (first_occurrences k))%list.
Proof.
  induction l as [|x l IH]; simpl.
  - symmetry. apply filter_all. intros y _. apply not_elem_of_nil.
  - f_equal. rewrite IH, filter_app. f_equal.
    rewrite <- (filter_and (λ y, y ≠ x) (λ y, y ∉ l)).
    apply list_filter_iff. intros y. rewrite not_elem_of_cons. tauto.
Qed.

End first_occurrences_facts.

Section historical_more.
Implicit Types (df : DataFrame) (f : string) (ucol : list cell).

Lemma known_not_user_id f : f ∈ all_features → f ≠ "user_id".
Proof. intros Hf%elem_of_all_features. naive_solver. Qed.

Lemma known_features_cons f (features : list string) :
  known_features (f :: features) =
  if decide (f ∈ all_features) then f :: known_features features
  else known_features features.
Proof. unfold known_features. by rewrite filter_cons. Qed.

Lemma user_id_not_known (features : list string) :
  "user_id" ∉ known_features features.
Proof.
  unfold known_features. intros [Hk _]%list_elem_of_filter.
  by apply known_not_user_id in Hk.
Qed.

(** *** Columns by label *)

Lemma elem_of_df_names df f : f ∈ df_names df ↔ df_cols df f ≠ [].
Proof.
  unfold df_names, df_cols. induction (columns df) as [|[k w] d IH].
  - split; [by intros ?%elem_of_nil|done].
  - rewrite fmap_cons, filter_cons, elem_of_cons. cbn [fst].
    destruct (decide (k = f)) as [->|Hne].
    + rewrite fmap_cons. split; [done|auto].
    + rewrite <- IH. naive_solver.
Qed.


(** Assigning to a label the content that all its columns hold already
    leaves the frame as it is. *)
Lemma df_setitem_fixed df f col :
  df_cols df f ≠ [] → Forall (λ c, c = col) (df_cols df f) →
  df_setitem df f col = df.
Proof.
  rewrite <- elem_of_df_names. intros Hin Hall.
  unfold df_setitem. rewrite decide_True by done.
  destruct df as [n d]. unfold df_cols in Hall. cbn [nrows columns] in *.
  f_equal. clear Hin. induction d as [|[k w] d IH]; [done|].
  rewrite fmap_cons. cbn [fst]. rewrite filter_cons in Hall. cbn [fst] in Hall.
  destruct (decide (k = f)) as [->|Hne].
  - rewrite fmap_cons in Hall. apply Forall_cons in Hall as [Hw Hall].
    simpl in Hw. subst w. f_equal. by apply IH.
  - f_equal. by apply IH.
Qed.

Lemma assign_columns_keys (d : list (string * list cell)) f cols :
  (assign_columns d f cols).*1 = d.*1.
Proof.
  revert cols. induction d as [|[k w] d IH]; intros cols; [done|].
  cbn [assign_columns]. destruct (decide (k = f)) as [->|Hne].
  - destruct cols as [|col cols]; [done|].
    rewrite !fmap_cons. cbn [fst]. by rewrite IH.
  - rewrite !fmap_cons. by rewrite IH.
Qed.

Lemma assign_columns_ne (d : list (string * list cell)) f g cols :
  g ≠ f →
  filter (λ c, c.1 = g) (assign_columns d f cols) = filter (λ c, c.1 = g) d.
Proof.
  intros Hgf. revert cols. induction d as [|[k w] d IH]; intros cols; [done|].
  cbn [assign_columns]. destruct (decide (k = f)) as [->|Hne].
  - destruct cols as [|col cols]; [done|].
    rewrite !filter_cons. cbn [fst].
    rewrite !decide_False by (by intros ->). apply IH.
  - rewrite !filter_cons. cbn [fst]. by rewrite IH.
Qed.

Lemma assign_columns_eq (d : list (string * list cell)) f cols :
  length (filter (λ c, c.1 = f) d) = length cols →
  (filter (λ c, c.1 = f) (assign_columns d f cols)).*2 = cols.
Proof.
  revert cols. induction d as [|[k w] d IH]; intros cols.
  - simpl. by destruct cols.
  - cbn [assign_columns]. rewrite filter_cons. cbn [fst].
    destruct (decide (k = f)) as [->|Hne].
    + destruct cols as [|col cols]; [done|]. cbn [length]. intros [= Hlen].
      rewrite filter_cons. cbn [fst]. rewrite decide_True by done.
      rewrite fmap_cons. cbn [snd]. f_equal. by apply IH.
    + intros Hlen. rewrite filter_cons. cbn [fst].
      rewrite decide_False by done. by apply IH.
Qed.

Lemma assign_columns_fixed (d : list (string * list cell)) f cols :
  (filter (λ c, c.1 = f) d).*2 = cols → assign_columns d f cols = d.
Proof.
  revert cols. induction d as [|[k w] d IH]; intros cols; [done|].
  cbn [assign_columns]. rewrite filter_cons. cbn [fst].
  destruct (decide (k = f)) as [->|Hne].
  - rewrite fmap_cons. cbn [snd]. intros <-. f_equal. by apply IH.
  - intros Hc. f_equal. by apply IH.
Qed.

(** *** One turn of the loop, on any frame *)

Lemma add_historical_feature_step df f :
  f ∈ all_features →
  add_historical_feature df f =
  (uid ← df_getitem df "user_id";
   df_setitem_selection df f (selection_mul uid (coefficient f))).
Proof.
  intros Hf%elem_of_all_features. destruct Hf as [-> | [-> | ->]]; reflexivity.
Qed.

Lemma add_historical_feature_shape df f df' :
  f ∈ all_features → add_historical_feature df f = Ok df' →
  nrows df' = nrows df
  ∧ df_names df' =
    (if decide (f ∈ df_names df) then df_names df
     else (df_names df ++ [f])%list)
  ∧ ∀ g, g ≠ f → df_cols df' g = df_cols df g.
Proof.
  intros Hf. rewrite add_historical_feature_step by done. unfold df_getitem.
  destruct (df_cols df "user_id") as [|u [|u' U]];
    cbn [mbind result_bind selection_mul df_setitem_selection].
  - discriminate.
  - intros [= <-]. split_and!; [done|apply df_names_setitem|].
    intros g Hg. apply df_cols_setitem_ne. by intros ->.
  - destruct (decide (f ∈ df_names df)) as [Hin|]; [|discriminate].
    case_decide; [|discriminate]. intros [= <-].
    split_and!; [done|apply assign_columns_keys|].
    intros g Hg. unfold df_cols. cbn [columns]. by rewrite assign_columns_ne.
Qed.

Lemma add_historical_feature_written df f df' :
  f ∈ all_features → add_historical_feature df f = Ok df' →
  feature_written (df_cols df "user_id") df' f.
Proof.
  intros Hf. rewrite add_historical_feature_step by done.
  unfold df_getitem, feature_written.
  destruct (df_cols df "user_id") as [|u [|u' U]];
    cbn [mbind result_bind selection_mul df_setitem_selection].
  - discriminate.
  - intros [= <-]. apply df_cols_setitem_eq.
  - case_decide; [|discriminate].
    case_decide as Hlen; [|discriminate]. intros [= <-].
    unfold df_cols. cbn [columns]. apply assign_columns_eq.
    rewrite <- Hlen. unfold df_cols. by rewrite length_fmap.
Qed.

Lemma add_historical_feature_fixed df f :
  f ∈ all_features → feature_written (df_cols df "user_id") df f →
  add_historical_feature df f = Ok df.
Proof.
  intros Hf. rewrite add_historical_feature_step by done.
  unfold df_getitem, feature_written.
  destruct (df_cols df "user_id") as [|u [|u' U]];
    cbn [mbind result_bind selection_mul df_setitem_selection].
  - done.
  - intros [Hne Hall]. f_equal. by apply df_setitem_fixed.
  - intros Hcols.
    rewrite decide_True by (apply elem_of_df_names; by rewrite Hcols).
    rewrite decide_True by (by rewrite Hcols).
    f_equal. destruct df as [n d]. cbn [nrows columns]. f_equal.
    by apply assign_columns_fixed.
Qed.

Lemma feature_written_cols (ucols : list (list cell)) df df' f :
  df_cols df' f = df_cols df f →
  feature_written ucols df f → feature_written ucols df' f.
Proof. unfold feature_written. by intros ->. Qed.

(** *** The loop, on any frame *)

Lemma historical_loop_shape (features : list string) df out :
  for_each add_historical_feature df features = Ok out →
  nrows out = nrows df
  ∧ df_names out =
    (df_names df
       ++ filter (λ f, f ∉ df_names df)
            (first_occurrences (known_features features)))%list
  ∧ ∀ c, c ∉ known_features features → df_cols out c = df_cols df c.
Proof.
  revert df. induction features as [|g features IH]; intros df.
  - intros [= <-]. split_and!; [done| |done]. simpl. by rewrite app_nil_r.
  - cbn [for_each]. rewrite known_features_cons.
    destruct (decide (g ∈ all_features)) as [Hg|Hg].
    + destruct (add_historical_feature df g) as [df'|e] eqn:Hstep;
        [|discriminate].
      cbn [mbind result_bind]. intros (Hn & Hnames & Hcols)%IH.
      destruct (add_historical_feature_shape df g df' Hg Hstep)
        as (Hn' & Hnames' & Hcols').
      split_and!.
      * congruence.
      * rewrite Hnames, Hnames'. cbn [first_occurrences].
        set (N := df_names df). rewrite filter_cons.
        destruct (decide (g ∈ N)) as [Hin|Hnin].
        -- rewrite decide_False by tauto. f_equal.
           rewrite <- (filter_and (λ f, f ∉ N) (λ y, y ≠ g)).
           apply list_filter_iff. intros y. split; [|tauto].
           intros Hy. split; [done|]. by intros ->.
        -- rewrite decide_True by done. rewrite <- app_assoc. cbn [app].
           do 2 f_equal.
           rewrite <- (filter_and (λ f, f ∉ N) (λ y, y ≠ g)).
           apply list_filter_iff. intros y.
           rewrite not_elem_of_app, list_elem_of_singleton. tauto.
      * intros c [Hcg Hc]%not_elem_of_cons. rewrite Hcols by done.
        by apply Hcols'.
    + rewrite add_historical_feature_unknown by done. apply IH.
Qed.

Lemma historical_loop_written (features : list string) df out :
  for_each add_historical_feature df features = Ok out →
  ∀ f, f ∈ known_features features
       ∨ feature_written (df_cols df "user_id") df f →
       feature_written (df_cols df "user_id") out f.
Proof.
  revert df. induction features as [|g features IH]; intros df.
  - intros [= <-] f [[]%elem_of_nil|]; done.
  - cbn [for_each]. rewrite known_features_cons.
    destruct (decide (g ∈ all_features)) as [Hg|Hg].
    + destruct (add_historical_feature df g) as [df'|e] eqn:Hstep;
        [|discriminate].
      cbn [mbind result_bind]. intros Hout f Hf.
      destruct (add_historical_feature_shape df g df' Hg Hstep)
        as (_ & _ & Hcols').
      assert (df_cols df' "user_id" = df_cols df "user_id") as HU.
      { apply Hcols'. by apply not_eq_sym, known_not_user_id. }
      specialize (IH df' Hout). rewrite HU in IH. apply IH.
      destruct (decide (f = g)) as [->|Hfg].
      * right. by apply add_historical_feature_written.
      * destruct Hf as [[?|Hin]%elem_of_cons|Hw]; [done|by left|].
        right. apply (feature_written_cols _ df); [by apply Hcols'|done].
    + rewrite add_historical_feature_unknown by done. apply IH.
Qed.

Lemma historical_loop_fixed (features : list string) df :
  (∀ f, f ∈ known_features features → add_historical_feature df f = Ok df) →
  for_each add_historical_feature df features = Ok df.
Proof.
  induction features as [|g features IH]; [done|].
  rewrite known_features_cons. intros Hfix. cbn [for_each].
  destruct (decide (g ∈ all_features)) as [Hg|Hg].
  - rewrite Hfix by left. cbn [mbind result_bind]. apply IH.
    intros f Hf. apply Hfix. by right.
  - rewrite add_historical_feature_unknown by done. by apply IH.
Qed.

(** *** The loop, on a frame with one user_id column *)

Lemma set_feature_user_id ucol df f :
  f ∈ all_features →
  df_cols (set_feature ucol df f) "user_id" = df_cols df "user_id".
Proof. intros Hf. apply df_cols_setitem_ne. by apply known_not_user_id. Qed.

Lemma historical_fold (features : list string) df ucol :
  df_cols df "user_id" = [ucol] →
  for_each add_historical_feature df features =
  Ok (foldl (set_feature ucol) df (known_features features)).
Proof.
  revert df. induction features as [|f features IH]; intros df Hu; [done|].
  cbn [for_each]. rewrite known_features_cons.
  destruct (decide (f ∈ all_features)) as [Hf|Hf].
  - rewrite (add_historical_feature_known df f ucol) by done.
    cbn [foldl]. apply IH. by rewrite set_feature_user_id.
  - rewrite add_historical_feature_unknown by done. by apply IH.
Qed.

Lemma historical_no_user_id (features : list string) df :
  df_cols df "user_id" = [] →
  for_each add_historical_feature df features =
  if decide (known_features features = []) then Ok df
  else Raise (KeyError "user_id").
Proof.
  intros Hu. induction features as [|f features IH]; [done|].
  cbn [for_each]. rewrite known_features_cons.
  destruct (decide (f ∈ all_features)) as [Hf|Hf].
  - rewrite decide_False by done.
    rewrite add_historical_feature_step by done.
    unfold df_getitem. by rewrite Hu.
  - rewrite add_historical_feature_unknown by done. apply IH.
Qed.

Lemma known_features_nil (features : list string) :
  known_features features = [] ↔ ∀ f, f ∈ features → f ∉ all_features.
Proof.
  unfold known_features. split.
  - intros Hnil f Hf Hk. by apply (filter_nil_not_elem_of _ _ f Hnil Hk).
  - intros Hnone. apply filter_none. by apply Forall_forall.
Qed.

(** X14. On an entity table with distinct column labels,
    simulate_historical_features raises only KeyError 'user_id', and
    exactly when the table has no user_id column and a requested name is
    one of the three known features; when no requested name is known it
    returns the entity table as it is, with or without a user_id column. *)
Theorem simulate_historical_outcome entity_df (features : option (list string)) :
  df_wf entity_df →
  ((∃ e, simulate_historical_features entity_df features = Raise e)
     ↔ df_col entity_df "user_id" = None
       ∧ ∃ f, f ∈ default all_features features ∧ f ∈ all_features)
  ∧ (∀ e, simulate_historical_features entity_df features = Raise e →
          e = KeyError "user_id")
  ∧ ((∀ f, f ∈ default all_features features → f ∉ all_features) →
     simulate_historical_features entity_df features = Ok entity_df).
Proof.
  intros Hwf. unfold simulate_historical_features.
  set (requested := default all_features features).
  assert (known_features requested ≠ [] ↔
          ∃ f, f ∈ requested ∧ f ∈ all_features) as Hne.
  { rewrite known_features_nil. split.
    - intros Hn. destruct (decide (Exists (λ f, f ∈ all_features) requested))
        as [(f & ? & ?)%Exists_exists|Hno]; [eauto|].
      exfalso. apply Hn. intros f Hf Hk. apply Hno, Exists_exists. eauto.
    - intros (f & Hf & Hk) Hn. by apply (Hn f). }
  destruct (df_col entity_df "user_id") as [ucol|] eqn:Hu.
  - rewrite (historical_fold requested entity_df ucol)
      by (by apply df_cols_of_wf).
    split_and!.
    + split; [intros [e [=]]|intros [[=] _]].
    + intros e [=].
    + intros Hnone%known_features_nil. by rewrite Hnone.
  - rewrite (historical_no_user_id requested entity_df)
      by (by apply df_cols_nil).
    destruct (decide (known_features requested = [])) as [Hnil|Hnn].
    + split_and!; [|intros e [=]|done].
      split; [intros [e [=]]|]. intros [_ Hex]. by apply Hne in Hex.
    + split_and!.
      * split; [|eauto]. intros _. split; [done|]. by apply Hne.
      * by intros e [= <-].
      * intros Hnone%known_features_nil. done.
Qed.

Lemma foldl_set_feature_lookup ucol (l : list string) df f :
  df_col (foldl (set_feature ucol) df l) f =
  if decide (f ∈ l) then Some (series_mul ucol (coefficient f))
  else df_col df f.
Proof.
  revert df. induction l as [|g l IH]; intros df.
  - rewrite decide_False; [done|]. apply not_elem_of_nil.
  - cbn [foldl]. rewrite IH. destruct (decide (f ∈ l)) as [Hin|Hnin].
    + rewrite decide_True; [done|]. by right.
    + destruct (decide (g = f)) as [->|Hne].
      * rewrite decide_True by left. apply df_col_setitem_eq.
      * rewrite decide_False by (rewrite elem_of_cons; naive_solver).
        by apply df_col_setitem_ne.
Qed.

(** X15. simulate_historical_features is idempotent: run again on its own
    output with the same request, it returns that output unchanged. *)
Theorem simulate_historical_idempotent entity_df
    (features : option (list string)) out :
  simulate_historical_features entity_df features = Ok out →
  simulate_historical_features out features = Ok out.
Proof.
  unfold simulate_historical_features.
  set (requested := default all_features features). intros Hout.
  destruct (historical_loop_shape requested entity_df out Hout)
    as (_ & _ & Hcols).
  pose proof (historical_loop_written requested entity_df out Hout) as Hw.
  apply historical_loop_fixed. intros f Hf.
  apply add_historical_feature_fixed.
  - unfold known_features in Hf. by apply list_elem_of_filter in Hf as [? _].
  - rewrite (Hcols "user_id") by apply user_id_not_known. apply Hw. by left.
Qed.


End historical_more.

Section online_more.
Implicit Types (f : string) (uid : Z) (uids : list Z)
  (entity_rows : list (gmap string Z)).

Lemma foldl_dict_set_keys {V} (val : string → V) (l : list string)
    (d : list (string * V)) :
  (foldl (λ d f, dict_set d f (val f)) d l).*1 =
  (d.*1 ++ filter (λ f, f ∉ d.*1) (first_occurrences l))%list.
Proof.
  revert d. induction l as [|g l IH]; intros d.
  - simpl. by rewrite app_nil_r.
  - cbn [foldl]. rewrite IH, dict_set_keys. cbn [first_occurrences].
    set (N := d.*1). rewrite filter_cons.
    destruct (decide (g ∈ N)) as [Hin|Hnin].
    + rewrite decide_False by tauto. f_equal.
      rewrite <- (filter_and (λ f, f ∉ N) (λ y, y ≠ g)).
      apply list_filter_iff. intros y. split; [|tauto].
      intros Hy. split; [done|]. by intros ->.
    + rewrite decide_True by done. rewrite <- app_assoc. cbn [app]. do 2 f_equal.
      rewrite <- (filter_and (λ f, f ∉ N) (λ y, y ≠ g)).
      apply list_filter_iff. intros y.
      rewrite not_elem_of_app, list_elem_of_singleton. tauto.
Qed.

Lemma online_fold (features : list string) uid (d : list (string * Z)) :
  foldl (add_online_feature uid) d features =
  foldl (λ d f, dict_set d f (uid * coefficient f)) d (known_features features).
Proof.
  unfold known_features.
  revert d. induction features as [|f features IH]; intros d; [done|].
  cbn [foldl]. rewrite filter_cons.
  destruct (decide (f ∈ all_features)) as [Hf|Hf].
  - rewrite add_online_feature_known by done. cbn [foldl]. apply IH.
  - rewrite add_online_feature_unknown by done. apply IH.
Qed.

(** The names a request adds to a frame that has only user_id. *)
Lemma new_names_not_user_id (features : list string) :
  filter (λ f, f ∉ ["user_id"]) (first_occurrences (known_features features)) =
  first_occurrences (known_features features).
Proof.
  apply filter_all. intros f Hf. rewrite elem_of_first_occurrences in Hf.
  unfold known_features in Hf. apply list_elem_of_filter in Hf as [Hk _].
  apply known_not_user_id in Hk. by rewrite list_elem_of_singleton.
Qed.

Lemma online_record_keys (features : list string) uid :
  (online_record features uid).*1 =
  "user_id" :: first_occurrences (known_features features).
Proof.
  unfold online_record.
  rewrite online_fold, (foldl_dict_set_keys (λ f, uid * coefficient f)).
  simpl. by rewrite new_names_not_user_id.
Qed.

Lemma records_names (K : list string) (rs : list (list (string * Z))) :
  NoDup K → rs ≠ [] → Forall (λ r, r.*1 = K) rs →
  first_occurrences (rs ≫= fmap fst) = K.
Proof.
  intros HK Hne Hrs. destruct rs as [|r rs]; [done|].
  apply Forall_cons in Hrs as [Hr Hrs].
  cbn [mbind list_bind]. rewrite first_occurrences_app.
  change (fst <$> r) with (r.*1). rewrite Hr, (first_occurrences_NoDup K HK).
  rewrite filter_none; [by rewrite app_nil_r|].
  apply Forall_forall. intros x Hx Hnx. apply Hnx.
  rewrite elem_of_first_occurrences in Hx.
  apply list_elem_of_bind in Hx as (r' & Hx & Hr').
  rewrite Forall_forall in Hrs. by rewrite <- (Hrs r' Hr').
Qed.

Lemma collect_online_outcome (features : list string) entity_rows :
  (Forall (λ row, is_Some (row !! "user_id")) entity_rows
   ∧ ∃ rs, collect (feature_dict_of features) entity_rows = Ok rs)
  ∨ (Exists (λ row, row !! "user_id" = None) entity_rows
     ∧ collect (feature_dict_of features) entity_rows =
       Raise (KeyError "user_id")).
Proof.
  induction entity_rows as [|row rows IH].
  - left. split; [constructor|by eexists].
  - cbn [collect].
    assert (feature_dict_of features row =
            match row !! "user_id" with
            | Some uid => Ok (online_record features uid)
            | None => Raise (KeyError "user_id")
            end) as ->.
    { unfold feature_dict_of, getitem. by destruct (row !! "user_id"). }
    destruct (row !! "user_id") as [uid|] eqn:Hrow.
    + destruct IH as [[Hall [rs ->]]|[Hex ->]].
      * left. split; [constructor; eauto|]. by eexists.
      * right. split; [by apply Exists_cons_tl|done].
    + right. split; [by apply Exists_cons_hd|done].
Qed.

(** X17. simulate_online_features raises only KeyError 'user_id', and
    exactly when some entity row has no user_id key, whatever features are
    requested (even none, or unknown ones). *)
Theorem simulate_online_outcome entity_rows (features : option (list string)) :
  ((∃ e, simulate_online_features entity_rows features = Raise e)
     ↔ ∃ row, row ∈ entity_rows ∧ row !! "user_id" = None)
  ∧ (∀ e, simulate_online_features entity_rows features = Raise e →
          e = KeyError "user_id").
Proof.
  unfold simulate_online_features.
  destruct (collect_online_outcome (default all_features features) entity_rows)
    as [[Hall [rs ->]]|[Hex ->]].
  - split; [|intros e [=]]. split; [intros [e [=]]|].
    intros (row & Hrow & Hnone). rewrite Forall_forall in Hall.
    destruct (Hall row Hrow) as [? ?]. congruence.
  - split; [|by intros e [= <-]]. split; [|eauto].
    intros _. by apply Exists_exists in Hex.
Qed.

(** X18. simulate_online_features reads nothing of an entity row but its
    user_id: two lists of entity rows with the same user_id entries, row by
    row, have the same outcome. *)
Theorem simulate_online_reads_user_id_only entity_rows entity_rows'
    (features : option (list string)) :
  Forall2 (λ row row' : gmap string Z, row !! "user_id" = row' !! "user_id")
    entity_rows entity_rows' →
  simulate_online_features entity_rows features =
  simulate_online_features entity_rows' features.
Proof.
  intros Hrows. unfold simulate_online_features. f_equal.
  induction Hrows as [|row row' rows rows' Hrow _ IH]; [done|].
  cbn [collect]. rewrite IH. unfold feature_dict_of, getitem. by rewrite Hrow.
Qed.

(** X19. The frame simulate_online_features returns has one row per
    entity row; it has no column at all when there is no entity row, and
    otherwise the columns user_id and then the known requested features in
    the order of their first request. *)
Theorem simulate_online_columns entity_rows uids
    (features : option (list string)) :
  Forall2 (λ row uid, row !! "user_id" = Some uid) entity_rows uids →
  ∃ out,
    simulate_online_features entity_rows features = Ok out
    ∧ nrows out = length entity_rows
    ∧ df_names out =
      match entity_rows with
      | [] => []
      | _ :: _ =>
          "user_id" :: first_occurrences
                         (known_features (default all_features features))
      end.
Proof.
  intros Hrows. unfold simulate_online_features.
  set (requested := default all_features features).
  rewrite (collect_online requested entity_rows uids Hrows).
  eexists. split; [reflexivity|]. split.
  - simpl. rewrite length_fmap. symmetry. by eapply Forall2_length.
  - unfold df_names, DataFrame_of_records. cbn [columns].
    rewrite <- list_fmap_compose, list_fmap_id.
    destruct Hrows as [|row uid rows uids' Hrow Hrows]; [done|].
    apply records_names.
    + constructor; [|apply NoDup_first_occurrences].
      rewrite elem_of_first_occurrences. unfold known_features.
      intros [Hk _]%list_elem_of_filter. by apply known_not_user_id in Hk.
    + done.
    + apply Forall_fmap, Forall_forall. intros u _. apply online_record_keys.
Qed.

End online_more.

Section simulations_compared.
Implicit Types (f : string) (uid : Z) (uids : list Z).

Lemma df_ext (df1 df2 : DataFrame) :
  nrows df1 = nrows df2 → NoDup (df_names df1) →
  df_names df1 = df_names df2 →
  (∀ c, c ∈ df_names df1 → df_col df1 c = df_col df2 c) → df1 = df2.
Proof.
  destruct df1 as [n1 c1], df2 as [n2 c2]. unfold df_names, df_col. simpl.
  intros -> Hnd Hnames Hcols. f_equal. by apply dict_ext.
Qed.

Lemma df_names_online (features : list string) uids :
  uids ≠ [] →
  df_names (DataFrame_of_records (online_record features <$> uids)) =
  "user_id" :: first_occurrences (known_features features).
Proof.
  intros Hne. unfold df_names, DataFrame_of_records. cbn [columns].
  rewrite <- list_fmap_compose, list_fmap_id. apply records_names.
  - constructor; [|apply NoDup_first_occurrences].
    rewrite elem_of_first_occurrences. unfold known_features.
    intros [Hk _]%list_elem_of_filter. by apply known_not_user_id in Hk.
  - by destruct uids.
  - apply Forall_fmap, Forall_forall. intros u _. apply online_record_keys.
Qed.

Lemma df_col_online (features : list string) uids c :
  c ∈ df_names (DataFrame_of_records (online_record features <$> uids)) →
  df_col (DataFrame_of_records (online_record features <$> uids)) c =
  Some ((λ u, from_option Int NaN (dict_get (online_record features u) c))
          <$> uids).
Proof.
  unfold df_names, df_col, DataFrame_of_records. cbn [columns].
  rewrite <- list_fmap_compose, list_fmap_id. intros Hc.
  rewrite dict_get_keyed, decide_True by done.
  by rewrite <- list_fmap_compose.
Qed.

(** X20. On the same entities the two simulations return the same frame:
    for a non-empty list of user ids whose requested simulated values fit
    int64, simulate_historical_features on the table whose only column is
    user_id and simulate_online_features on the entity rows with these ids
    have the same outcome, for every request. *)
Theorem simulations_same_frame entity_rows uids
    (features : option (list string)) :
  uids ≠ [] →
  Forall2 (λ row uid, row !! "user_id" = Some uid) entity_rows uids →
  (∀ uid f, uid ∈ uids → f ∈ default all_features features →
     int64 (simulated_value f uid)) →
  simulate_historical_features
    (mk_DataFrame (length uids) [("user_id", Int <$> uids)]) features =
  simulate_online_features entity_rows features.
Proof.
  intros Hne Hrows Hrange.
  unfold simulate_historical_features, simulate_online_features.
  set (requested := default all_features features) in *.
  set (df := mk_DataFrame (length uids) [("user_id", Int <$> uids)]).
  assert (df_cols df "user_id" = [Int <$> uids]) as Hu by reflexivity.
  pose proof (historical_fold requested df (Int <$> uids) Hu) as Hfold.
  destruct (historical_loop_shape requested df _ Hfold) as (Hn & Hnames & _).
  rewrite Hfold, (collect_online requested entity_rows uids Hrows).
  cbn [mbind result_bind]. f_equal.
  assert (df_names (foldl (set_feature (Int <$> uids)) df
                      (known_features requested)) =
          "user_id" :: first_occurrences (known_features requested)) as Hnames'.
  { rewrite Hnames. unfold df, df_names at 1 2. cbn [columns fmap list_fmap fst].
    by rewrite new_names_not_user_id. }
  apply df_ext.
  - rewrite Hn. simpl. by rewrite length_fmap.
  - rewrite Hnames'. constructor; [|apply NoDup_first_occurrences].
    rewrite elem_of_first_occurrences. apply user_id_not_known.
  - by rewrite Hnames', df_names_online.
  - intros c Hc. rewrite df_col_online by (by rewrite df_names_online, <- Hnames').
    rewrite foldl_set_feature_lookup. rewrite Hnames' in Hc.
    destruct (decide (c ∈ known_features requested)) as [Hin|Hnin].
    + unfold known_features in Hin. apply list_elem_of_filter in Hin as [Hk Hreq].
      rewrite series_mul_Int, <- list_fmap_compose. f_equal.
      apply list_fmap_ext. intros i u Hi. simpl.
      destruct (online_record_spec requested u) as (_ & Hval & _).
      rewrite Hval by done. simpl. f_equal. apply wrap64_int64.
      rewrite <- simulated_value_coefficient by done.
      apply Hrange; [by eapply list_elem_of_lookup_2|done].
    + apply elem_of_cons in Hc as [->|Hc].
      * unfold df, df_col. simpl. f_equal.
        apply list_fmap_ext. intros _ u _.
        destruct (online_record_spec requested u) as (Hid & _ & _).
        by rewrite Hid.
      * by rewrite elem_of_first_occurrences in Hc.
Qed.

(** X21. Fed with the engineered frame of a well-formed batch whose user
    ids, multiplied by 10, fit int64, and asked for all features,
    simulate_historical_features keeps the rows, the column names and the
    user_id column, and overwrites each of the three engineered counts with
    the simulated value for the user id. *)
Theorem simulate_historical_of_engineered raw :
  well_formed raw →
  (∀ uids u, user_id raw = Some uids → u ∈ uids → int64 (10 * u)) →
  ∃ df out users,
    engineer_user_activity_features raw = Ok df
    ∧ simulate_historical_features df None = Ok out
    ∧ df_col df "user_id" = Some (Int <$> users)
    ∧ nrows out = nrows df
    ∧ df_names out = df_names df
    ∧ df_col out "user_id" = Some (Int <$> users)
    ∧ ∀ f, f ∈ all_features →
        df_col out f = Some ((λ u, Int (simulated_value f u)) <$> users).
Proof.
  intros Hwf Hrange. destruct (engineer_well_formed raw Hwf) as (df & Hdf & _).
  pose proof Hdf as (uids & acts & tss & pids & Hraw & ->)%engineer_Ok_inv.
  set (df := engineered uids acts pids) in *.
  set (users := sorted_set uids).
  assert (df_col df "user_id" = Some (Int <$> users)) as Hu by reflexivity.
  assert (df_cols df "user_id" = [Int <$> users]) as Hus by reflexivity.
  pose proof (historical_fold all_features df (Int <$> users) Hus) as Hfold.
  destruct (historical_loop_shape all_features df _ Hfold) as (Hn & Hnames & _).
  exists df, (foldl (set_feature (Int <$> users)) df (known_features all_features)),
    users.
  split_and!; [done|done|done|done| | |].
  - rewrite Hnames. rewrite filter_none; [by rewrite app_nil_r|].
    apply Forall_forall. intros f Hf Hnf. apply Hnf.
    rewrite elem_of_first_occurrences in Hf. unfold known_features in Hf.
    apply list_elem_of_filter in Hf as [Hk _].
    apply elem_of_all_features in Hk.
    unfold df, engineered, df_names, DataFrame_of_dict. simpl. set_solver.
  - rewrite foldl_set_feature_lookup, decide_False; [done|].
    apply user_id_not_known.
  - intros f Hf. rewrite foldl_set_feature_lookup, decide_True.
    + rewrite series_mul_Int, <- list_fmap_compose. f_equal.
      apply list_fmap_ext. intros i u Hi. simpl.
      rewrite simulated_value_coefficient by done. f_equal.
      apply wrap64_int64.
      assert (int64 (10 * u)) as Hfit.
      { apply (Hrange uids); [by rewrite Hraw|].
        by eapply elem_of_sorted_set, list_elem_of_lookup_2. }
      revert Hfit. unfold int64.
      apply elem_of_all_features in Hf.
      destruct Hf as [-> | [-> | ->]]; unfold coefficient; simpl; lia.
    + unfold known_features. apply list_elem_of_filter. done.
Qed.

End simulations_compared.

(** ** The further theorems at the sample inputs *)

Lemma sample_reordered_well_formed : well_formed sample_reordered.
Proof. repeat split. Defined.

Lemma sample_other_products_well_formed : well_formed sample_other_products.
Proof. repeat split. Defined.

Lemma sample_reordered_records :
  records sample_batch ≡ₚ records sample_reordered.
Proof. apply perm_swap. Defined.

Lemma sample_other_products_same_views :
  Forall2 same_views (records sample_batch) (records sample_other_products).
Proof.
  repeat constructor; try reflexivity; intros Hview; discriminate Hview.
Defined.

Lemma sample_entity_rows_extra_user_ids :
  Forall2 (λ row row' : gmap string Z, row !! "user_id" = row' !! "user_id")
    sample_entity_rows sample_entity_rows_extra.
Proof. repeat constructor. Defined.

Lemma engineer_order_independent_witness :
  engineer_user_activity_features sample_batch =
  engineer_user_activity_features sample_reordered.
Proof.
  exact (engineer_order_independent sample_batch sample_reordered
           sample_batch_well_formed sample_reordered_well_formed
           sample_reordered_records).
Defined.

Lemma engineer_ignores_timestamps_witness :
  engineer_user_activity_features sample_batch =
  engineer_user_activity_features sample_retimed.
Proof.
  apply (engineer_ignores_timestamps sample_batch sample_retimed);
    reflexivity.
Defined.

Lemma engineer_reads_products_of_views_only_witness :
  engineer_user_activity_features sample_batch =
  engineer_user_activity_features sample_other_products.
Proof.
  exact (engineer_reads_products_of_views_only sample_batch
           sample_other_products sample_batch_well_formed
           sample_other_products_well_formed sample_other_products_same_views).
Defined.

Lemma engineer_reports_first_missing_key_witness :
  engineer_user_activity_features sample_two_missing =
  Raise (missing_key "activity_type").
Proof.
  apply (engineer_reports_first_missing_key sample_two_missing 1%nat).
  reflexivity.
Defined.

Lemma engineer_counts_add_up_witness :
  ∃ df rows,
    engineer_user_activity_features sample_batch = Ok df
    ∧ feature_rows df = Some rows
    ∧ sum_Z (fr_total_activities <$> rows) =
        Z.of_nat (length (records sample_batch))
    ∧ sum_Z (fr_purchase_count <$> rows) =
        Z.of_nat (length (filter (λ r, r_activity_type r = "purchase")
                            (records sample_batch))).
Proof. exact (engineer_counts_add_up sample_batch sample_batch_well_formed). Defined.

Lemma engineer_frame_shape_witness :
  df_wf sample_frame
  ∧ (∀ col_name col c,
       df_col sample_frame col_name = Some col → c ∈ col → ∃ z, c = Int z)
  ∧ ∃ uids, user_id sample_batch = Some uids
      ∧ nrows sample_frame = length (remove_dups uids)
      ∧ (nrows sample_frame ≤ length uids)%nat.
Proof.
  apply (engineer_frame_shape sample_batch sample_frame). reflexivity.
Defined.

Lemma simulate_historical_outcome_witness :
  ((∃ e, simulate_historical_features sample_entity_df None = Raise e)
     ↔ df_col sample_entity_df "user_id" = None
       ∧ ∃ f, f ∈ default all_features None ∧ f ∈ all_features)
  ∧ (∀ e, simulate_historical_features sample_entity_df None = Raise e →
          e = KeyError "user_id")
  ∧ ((∀ f, f ∈ default all_features None → f ∉ all_features) →
     simulate_historical_features sample_entity_df None = Ok sample_entity_df).
Proof.
  exact (simulate_historical_outcome sample_entity_df None sample_entity_df_wf).
Defined.

Lemma simulate_historical_idempotent_witness :
  simulate_historical_features sample_historical None = Ok sample_historical.
Proof.
  apply (simulate_historical_idempotent sample_entity_df None sample_historical).
  reflexivity.
Defined.


Lemma simulate_online_reads_user_id_only_witness :
  simulate_online_features sample_entity_rows (Some ["purchase_count"]) =
  simulate_online_features sample_entity_rows_extra (Some ["purchase_count"]).
Proof.
  exact (simulate_online_reads_user_id_only sample_entity_rows
           sample_entity_rows_extra (Some ["purchase_count"])
           sample_entity_rows_extra_user_ids).
Defined.

Lemma simulate_online_columns_witness :
  ∃ out,
    simulate_online_features sample_entity_rows
      (Some ["purchase_count"; "clicks"; "total_activities"; "purchase_count"])
      = Ok out
    ∧ nrows out = length sample_entity_rows
    ∧ df_names out =
      match sample_entity_rows with
      | [] => []
      | _ :: _ =>
          "user_id" :: first_occurrences
            (known_features
               (default all_features
                  (Some ["purchase_count"; "clicks"; "total_activities";
                         "purchase_count"])))
      end.
Proof.
  exact (simulate_online_columns sample_entity_rows [1; 3; 5]
           (Some ["purchase_count"; "clicks"; "total_activities";
                  "purchase_count"])
           sample_entity_rows_user_ids).
Defined.

Lemma simulations_same_frame_witness :
  simulate_historical_features
    (mk_DataFrame (length [1; 3; 5]) [("user_id", Int <$> [1; 3; 5])])
    (Some ["purchase_count"; "clicks"; "total_activities"]) =
  simulate_online_features sample_entity_rows
    (Some ["purchase_count"; "clicks"; "total_activities"]).
Proof.
  apply (simulations_same_frame sample_entity_rows [1; 3; 5]
           (Some ["purchase_count"; "clicks"; "total_activities"])).
  - discriminate.
  - exact sample_entity_rows_user_ids.
  - intros uid f Huid Hf. simpl in Hf. set_unfold.
    destruct_or!; simplify_eq; by vm_compute.
Defined.

Lemma simulate_historical_of_engineered_witness :
  ∃ df out users,
    engineer_user_activity_features sample_batch = Ok df
    ∧ simulate_historical_features df None = Ok out
    ∧ df_col df "user_id" = Some (Int <$> users)
    ∧ nrows out = nrows df
    ∧ df_names out = df_names df
    ∧ df_col out "user_id" = Some (Int <$> users)
    ∧ ∀ f, f ∈ all_features →
        df_col out f = Some ((λ u, Int (simulated_value f u)) <$> users).
Proof.
  apply (simulate_historical_of_engineered sample_batch sample_batch_well_formed).
  intros uids u [= <-] Hu. set_unfold.
  destruct_or!; simplify_eq; by vm_compute.
Defined.
